(** * Zenoss OpenCensus exporter: view translation, freshness and delivery

    A shallow embedding of the exporter core ([data.go], [utils.go],
    [kubernetes.go] and the freshness checker) together with the
    properties its specification states about it.

    Conventions.
    - Go maps [map[string]string] are [gmap string string]; a [range]
      loop over a map that only inserts into another map is a [map_fold].
    - [int64] values are [Z]; arithmetic that can wrap is written with
      [wrap64].  [uint64] hashes are [Z] as well.
    - [float64] is the primitive binary64 type; [float64(n)] for an
      [int64] is rounding to nearest even.
    - Code the exporter only calls (regexp, hashstructure, bundler, the
      gRPC client) enters through small interfaces, one class each.
    - Pointers produced by the instrumentation framework are never nil;
      a [*Data] returned by a user hook can be, and is an [option]. *)

From Stdlib Require Import ZArith String Ascii List Permutation.
From Stdlib Require Import PrimFloat FloatOps SpecFloat.
From stdpp Require Import gmap strings list fin_maps.

Local Open Scope string_scope.

(** ** Machine numbers *)

Definition wrap64 (z : Z) : Z :=
  ((z + 2 ^ 63) `mod` 2 ^ 64 - 2 ^ 63)%Z.

Definition int64_sub (a b : Z) : Z := wrap64 (a - b).

Definition int64_quot (a b : Z) : Z := wrap64 (Z.quot a b).

Definition float64 : Type := PrimFloat.float.

Definition float64_of_int64 (z : Z) : float64 :=
  SF2Prim (binary_normalize prec emax z 0 false).

(** ** Constants of the package *)

Definition DefaultAddress : string := "api.zenoss.io:443".
Definition DefaultSourceType : string := "zenoss/opencensus-go-exporter-zenoss".
Definition APIKeyHeader : string := "zenoss-api-key".
Definition SourceTypeField : string := "source-type".
Definition NameField : string := "name".
Definition DescriptionField : string := "description".
Definition UnitsField : string := "units".

Definition K8sClusterField : string := "k8s.cluster".
Definition K8sNamespaceField : string := "k8s.namespace".
Definition K8sPodField : string := "k8s.pod".
Definition ImpactFromDimensionsField : string := "impactFromDimensions".
Definition ImpactToDimensionsField : string := "impactToDimensions".

Definition LogLevel : Type := Z.
Definition LogLevelDebug : LogLevel := 1%Z.
Definition LogLevelInfo : LogLevel := 2%Z.
Definition LogLevelWarning : LogLevel := 3%Z.
Definition LogLevelError : LogLevel := 4%Z.

(** ** Data model *)

(** The two kinds of [structpb.Value] the exporter builds. *)
#[local] Unset Elimination Schemes.
Inductive Value : Type :=
  | StringValue (s : string)
  | ListValue (vs : list Value).
#[local] Set Elimination Schemes.

Record Tag : Type := mkTag { Key : string; TagValue : string }.

Inductive AggregationData : Type :=
  | CountData (v : Z)
  | SumData (v : float64)
  | LastValueData (v : float64)
  | DistributionData (Count : Z) (Min Max Mean SumOfSquaredDev : float64)
  | NilData.

Record Row : Type := mkRow { Tags : list Tag; RowData : AggregationData }.

Record View : Type := mkView {
  Name : string;
  Description : string;
  MeasureUnit : string
}.

(** [EndUnixNano] is [viewData.End.UnixNano()]. *)
Record ViewData : Type := mkViewData {
  ViewOf : View;
  EndUnixNano : Z;
  Rows : list Row
}.

Record Model : Type := mkModel {
  Model_Timestamp : Z;
  Model_Dimensions : gmap string string;
  Model_MetadataFields : gmap string Value
}.

Record Metric : Type := mkMetric {
  Metric_Metric : string;
  Metric_Dimensions : gmap string string;
  Metric_MetadataFields : gmap string Value;
  Metric_Timestamp : Z;
  Metric_Value : float64
}.

Record Data : Type := mkData { Models : list Model; Metrics : list Metric }.

Definition emptyData : Data := mkData [] [].

Definition AddModel (d : Data) (model : Model) : Data :=
  mkData (Models d ++ [model]) (Metrics d).

Definition AddMetric (d : Data) (metric : Metric) : Data :=
  mkData (Models d) (Metrics d ++ [metric]).

(** ** utils.go *)

Definition copyMap (m : gmap string string) : gmap string string :=
  map_fold (fun k v newMap => <[k := v]> newMap) ∅ m.

Definition valueFromString (s : string) : Value := StringValue s.

Definition valueFromStringSlice (ss : list string) : Value :=
  ListValue (map valueFromString ss).

Definition metadataFieldsFromMap (m : gmap string string) : gmap string Value :=
  map_fold
    (fun k v fields =>
       if String.eqb k ImpactFromDimensionsField || String.eqb k ImpactToDimensionsField
       then <[k := valueFromStringSlice [v]]> fields
       else <[k := valueFromString v]> fields)
    ∅ m.

(** ** kubernetes.go *)

Definition addKubernetesImpacts (metadataFields : gmap string string)
  : gmap string string :=
  match metadataFields !! K8sClusterField with
  | None => metadataFields
  | Some cluster =>
    if String.eqb cluster "" then metadataFields else
    match metadataFields !! K8sNamespaceField with
    | None => metadataFields
    | Some namespace =>
      if String.eqb namespace "" then metadataFields else
      match metadataFields !! K8sPodField with
      | None => metadataFields
      | Some pod =>
        if String.eqb pod "" then metadataFields else
        <[ImpactFromDimensionsField :=
            K8sClusterField ++ "=" ++ cluster ++ "," ++
            K8sNamespaceField ++ "=" ++ namespace ++ "," ++
            K8sPodField ++ "=" ++ pod]> metadataFields
      end
    end
  end.

(** ** Options, errors and results *)

Inductive error : Type :=
  | ErrOverflow
  | ErrOversizedItem
  | ErrOther (msg : string).

(** A Go result pair [(value, error)]. *)
Inductive result (A : Type) : Type :=
  | Ok (a : A)
  | Err (err : error).
Arguments Ok {A} a.
Arguments Err {A} err.

(** The outcome of a call that can end in a nil-pointer panic. *)
Inductive run (A : Type) : Type :=
  | Done (a : A)
  | Panic.
Arguments Done {A} a.
Arguments Panic {A}.

#[export] Instance run_ret : MRet run := fun A a => Done a.
#[export] Instance run_bind : MBind run := fun A B k r =>
  match r with
  | Done a => k a
  | Panic => Panic
  end.

(** [OnLog] records only whether a custom log function is installed:
    what it receives is kept in the exporter's log trace. *)
Record Options : Type := mkOptions {
  Address : string;
  APIKey : string;
  GlobalDimensions : gmap string string;
  GlobalMetadataFields : gmap string string;
  ModelDimensionTags : list string;
  IgnoredMetricNames : list string;
  BundleDelayThreshold : Z;
  BundleCountThreshold : Z;
  OnViewData : option (ViewData -> option Data * bool);
  OnViewRow : option (ViewData -> Row -> option Data * bool);
  OnData : option (option Data -> option Data);
  OnLog : bool
}.

Definition withAddress (o : Options) (address : string) : Options :=
  mkOptions address (APIKey o) (GlobalDimensions o) (GlobalMetadataFields o)
    (ModelDimensionTags o) (IgnoredMetricNames o) (BundleDelayThreshold o)
    (BundleCountThreshold o) (OnViewData o) (OnViewRow o) (OnData o) (OnLog o).

(** ** Row translation (the pure part of [onViewRow]) *)

(** The inner loop over the row's tags: the first tag whose key is
    [modelDimensionTag] ends the scan. *)
Fixpoint firstTagValue (modelDimensionTag : string) (tags : list Tag)
  : option string :=
  match tags with
  | [] => None
  | rowTag :: rest =>
    if String.eqb (Key rowTag) modelDimensionTag then Some (TagValue rowTag)
    else firstTagValue modelDimensionTag rest
  end.

(** "Pull dimensions, and name from row's tags." *)
Definition pullStep (tags : list Tag) (acc : gmap string string * list string)
    (modelDimensionTag : string) : gmap string string * list string :=
  match firstTagValue modelDimensionTag tags with
  | Some value => (<[modelDimensionTag := value]> (fst acc), (snd acc ++ [value])%list)
  | None => acc
  end.

Definition pullDimensions (modelDimensionTags : list string) (tags : list Tag)
  : gmap string string * list string :=
  fold_left (pullStep tags) modelDimensionTags (∅, []).

(** "Any tag that isn't a dimension becomes metadata." *)
Definition tagsToMetadata (dimensions : gmap string string) (tags : list Tag)
    (metadataFields : gmap string string) : gmap string string :=
  fold_left
    (fun md rowTag =>
       match dimensions !! Key rowTag with
       | Some _ => md
       | None => <[Key rowTag := TagValue rowTag]> md
       end)
    tags metadataFields.

(** "Copy global dimensions." / "Copy global metadata fields." *)
Definition copyGlobals (globals target : gmap string string) : gmap string string :=
  map_fold (fun k v acc => <[k := v]> acc) target globals.

(** The [tags] map logged for a row without dimension tags. *)
Definition tagsMap (tags : list Tag) : gmap string string :=
  fold_left (fun m tag => <[Key tag := TagValue tag]> m) tags ∅.

(** The closure [addMetric] with the variables it captures. *)
Definition addMetric (viewData : ViewData)
    (metadataFields dimensions : gmap string string) (timestamp : Z)
    (data : Data) (name : string) (value : float64) : Data :=
  let metricMetadataFields := copyMap metadataFields in
  let description := Description (ViewOf viewData) in
  let metricMetadataFields :=
    if String.eqb description "" then metricMetadataFields
    else <[DescriptionField := description]> metricMetadataFields in
  let units := MeasureUnit (ViewOf viewData) in
  let metricMetadataFields :=
    if String.eqb units "" then metricMetadataFields
    else <[UnitsField := units]> metricMetadataFields in
  AddMetric data
    (mkMetric name (copyMap dimensions)
       (metadataFieldsFromMap metricMetadataFields) timestamp value).

Definition distributionParams (Count : Z) (Min Max Mean SumOfSquaredDev : float64)
  : list (string * float64) :=
  [("count", float64_of_int64 Count); ("min", Min); ("max", Max);
   ("mean", Mean); ("ss", SumOfSquaredDev)].

(** Go leaves the order of a [range] over a map unspecified: the order in
    which the entries of [params] are visited is any permutation. *)
Class MapRange : Type := {
  range_order : list (string * float64) -> list (string * float64);
  range_order_perm : forall l, Permutation (range_order l) l
}.

Section Translation.
Context {mapRange : MapRange}.

(** The type switch on [viewRow.Data]. *)
Definition rowMetrics (viewData : ViewData)
    (metadataFields dimensions : gmap string string) (timestamp : Z)
    (data : Data) (rowData : AggregationData) : Data :=
  let add := addMetric viewData metadataFields dimensions timestamp in
  let name := Name (ViewOf viewData) in
  match rowData with
  | CountData v => add data name (float64_of_int64 v)
  | SumData v => add data name v
  | LastValueData v => add data name v
  | DistributionData Count Min Max Mean SumOfSquaredDev =>
    fold_left
      (fun data p => add data (name ++ "/" ++ fst p) (snd p))
      (range_order (distributionParams Count Min Max Mean SumOfSquaredDev))
      data
  | NilData => data
  end.

(** Everything [onViewRow] computes before it hands [data] to
    [bundleData]; [None] is the early return for a row without any
    model dimension tag. *)
Definition onViewRow_data (o : Options) (viewData : ViewData) (viewRow : Row)
  : option Data :=
  let metadataFields : gmap string string :=
    {[SourceTypeField := DefaultSourceType]} in
  let '(dimensions, nameParts) :=
    pullDimensions (ModelDimensionTags o) (Tags viewRow) in
  if (length nameParts =? 0)%nat then None else
  let metadataFields := tagsToMetadata dimensions (Tags viewRow) metadataFields in
  let metadataFields := addKubernetesImpacts metadataFields in
  let dimensions := copyGlobals (GlobalDimensions o) dimensions in
  let metadataFields := copyGlobals (GlobalMetadataFields o) metadataFields in
  if (length nameParts =? 0)%nat then None else
  let data := emptyData in
  let timestamp := int64_quot (EndUnixNano viewData) 1000000 in
  let modelMetadataFields := copyMap metadataFields in
  let modelMetadataFields :=
    <[NameField := String.concat "/" nameParts]> modelMetadataFields in
  let data :=
    AddModel data
      (mkModel timestamp dimensions (metadataFieldsFromMap modelMetadataFields)) in
  Some (rowMetrics viewData metadataFields dimensions timestamp data
          (RowData viewRow)).

End Translation.

(** ** Interfaces of the libraries the exporter calls *)

(** [regexp]: compiled patterns; [FindString] is the text of the leftmost
    match, and the empty string when there is none. *)
Class RegexpLib : Type := {
  Regexp : Type;
  regexp_Compile : string -> result Regexp;
  FindString : Regexp -> string -> string;
  MatchString : Regexp -> string -> bool;
  FindString_MatchString :
    forall re s, FindString re s <> "" -> MatchString re s = true
}.

(** [hashstructure.Hash] at the two types it is called on. *)
Class HashLib : Type := {
  hashDimensions : gmap string string -> result Z;
  hashMetadataFields : gmap string Value -> result Z
}.

(** [bundler.Bundler]: [bundler_Add b item size] is the bundler after the
    call and the error [Add] returned, if any. *)
Class BundlerLib : Type := {
  Bundler : Type -> Type;
  NewBundler : forall A : Type, Bundler A;
  setDelayThreshold : forall A : Type, Bundler A -> Z -> Bundler A;
  setBundleCountThreshold : forall A : Type, Bundler A -> Z -> Bundler A;
  bundler_Add : forall A : Type, Bundler A -> A -> Z -> Bundler A * option error
}.
Arguments setDelayThreshold {_ A} b d.
Arguments setBundleCountThreshold {_ A} b n.
Arguments bundler_Add {_ A} b item size.

Record StatusResult : Type := mkStatusResult { Failed : Z; Succeeded : Z }.

(** The nil-safe getter of the generated protobuf code. *)
Definition GetFailed (status : option StatusResult) : Z :=
  match status with
  | Some s => Failed s
  | None => 0%Z
  end.

(** [grpc.Dial] and the two calls of the data receiver client; a call gets
    its deadline (nanoseconds), the outgoing header pair, the
    [DetailedResponse] flag and the batch. *)
Class GrpcLib : Type := {
  ClientConn : Type;
  grpc_Dial : string -> result ClientConn;
  client_PutModels :
    ClientConn -> Z -> string * string -> bool -> list Model ->
    option StatusResult * option error;
  client_PutMetrics :
    ClientConn -> Z -> string * string -> bool -> list Metric ->
    option StatusResult * option error
}.

(** ** Exporter state *)

Inductive FieldValue : Type :=
  | FString (s : string)
  | FInt (n : Z)
  | FTags (tags : gmap string string)
  | FError (err : option error).

Inductive LogTarget : Type := CustomLog | StandardLog.

Record LogCall : Type := mkLogCall {
  log_target : LogTarget;
  log_level : LogLevel;
  log_fields : gmap string FieldValue;
  log_format : string
}.

Inductive Sent : Type :=
  | SentModels (models : list Model)
  | SentMetrics (metrics : list Metric).

Record expiringUint64 : Type := mkExpiring { exp_v : Z; exp_t : Z }.

(** [fc_seconds] is the [seconds] argument captured by the eviction
    goroutine. *)
Record freshnessChecker : Type := mkFreshnessChecker {
  fc_m : gmap Z expiringUint64;
  fc_seconds : Z
}.

Section Exporter.
Context {regexpLib : RegexpLib} {hashLib : HashLib} {bundlerLib : BundlerLib}
  {grpcLib : GrpcLib} {mapRange : MapRange}.

(** [logged] is every call that reached the custom log function or the
    standard logger; [sent] is every outbound call made. *)
Record Exporter : Type := mkExporter {
  options : Options;
  ignoredMetrics : list Regexp;
  client : ClientConn;
  modelsBundler : Bundler Model;
  metricsBundler : Bundler Metric;
  modelFreshnessChecker : freshnessChecker;
  logged : list LogCall;
  sent : list Sent
}.

Definition withModelsBundler (e : Exporter) (b : Bundler Model) : Exporter :=
  mkExporter (options e) (ignoredMetrics e) (client e) b (metricsBundler e)
    (modelFreshnessChecker e) (logged e) (sent e).

Definition withMetricsBundler (e : Exporter) (b : Bundler Metric) : Exporter :=
  mkExporter (options e) (ignoredMetrics e) (client e) (modelsBundler e) b
    (modelFreshnessChecker e) (logged e) (sent e).

Definition withFreshnessChecker (e : Exporter) (f : freshnessChecker) : Exporter :=
  mkExporter (options e) (ignoredMetrics e) (client e) (modelsBundler e)
    (metricsBundler e) f (logged e) (sent e).

Definition withLogged (e : Exporter) (l : list LogCall) : Exporter :=
  mkExporter (options e) (ignoredMetrics e) (client e) (modelsBundler e)
    (metricsBundler e) (modelFreshnessChecker e) l (sent e).

Definition withSent (e : Exporter) (s : list Sent) : Exporter :=
  mkExporter (options e) (ignoredMetrics e) (client e) (modelsBundler e)
    (metricsBundler e) (modelFreshnessChecker e) (logged e) s.

(** [Exporter.log] *)
Definition log (e : Exporter) (level : LogLevel)
    (fields : gmap string FieldValue) (format : string) : Exporter :=
  if OnLog (options e) then
    withLogged e (logged e ++ [mkLogCall CustomLog level fields format])
  else if (LogLevelInfo <? level)%Z then
    withLogged e (logged e ++ [mkLogCall StandardLog level fields format])
  else e.

(** ** Freshness checker *)

Definition newFreshnessChecker (seconds : Z) : freshnessChecker :=
  mkFreshnessChecker ∅ seconds.

(** One iteration of the eviction goroutine, at tick [now] (Unix seconds). *)
Definition evict (f : freshnessChecker) (now : Z) : freshnessChecker :=
  mkFreshnessChecker
    (map_fold
       (fun k v m =>
          if (fc_seconds f <? int64_sub now (exp_t v))%Z then delete k m else m)
       (fc_m f) (fc_m f))
    (fc_seconds f).

(** [isFresh], with the reading [now] of [time.Now().Unix()]. *)
Definition isFresh (f : freshnessChecker) (model : Model) (now : Z)
  : bool * freshnessChecker :=
  match hashDimensions (Model_Dimensions model) with
  | Err _ => (false, f)
  | Ok keyHash =>
    match hashMetadataFields (Model_MetadataFields model) with
    | Err _ => (false, f)
    | Ok valueHash =>
      if match fc_m f !! keyHash with
         | Some old => (valueHash =? exp_v old)%Z
         | None => false
         end
      then (true, f)
      else (false,
            mkFreshnessChecker
              (<[keyHash := mkExpiring valueHash now]> (fc_m f))
              (fc_seconds f))
    end
  end.

(** ** Bundling *)

Definition sendFailure (what : string) (err : error) : string :=
  match err with
  | ErrOverflow => "failed to send " ++ what ++ ": buffer full"
  | _ => "failed to send " ++ what
  end.

(** The body of the loop over [data.Models]. *)
Definition bundleModel (now : Z) (e : Exporter) (model : Model) : Exporter :=
  let '(fresh, f) := isFresh (modelFreshnessChecker e) model now in
  let e := withFreshnessChecker e f in
  if fresh then e else
  let '(b, err) := bundler_Add (modelsBundler e) model 1 in
  let e := withModelsBundler e b in
  match err with
  | None => e
  | Some err' =>
    log e LogLevelError {[ "error" := FError err ]} (sendFailure "models" err')
  end.

(** The body of the loop over [data.Metrics]. *)
Definition bundleMetric (e : Exporter) (metric : Metric) : Exporter :=
  let '(b, err) := bundler_Add (metricsBundler e) metric 1 in
  let e := withMetricsBundler e b in
  match err with
  | None => e
  | Some err' =>
    log e LogLevelError {[ "error" := FError err ]} (sendFailure "metrics" err')
  end.

Definition bundleModels (now : Z) (e : Exporter) (models : list Model) : Exporter :=
  fold_left (bundleModel now) models e.

Definition bundleMetrics (e : Exporter) (metrics : list Metric) : Exporter :=
  fold_left bundleMetric metrics e.

(** [bundleData]; reading [data.Models] of a nil [*Data] panics. *)
Definition bundleData (now : Z) (e : Exporter) (data : option Data) : run Exporter :=
  let data :=
    match OnData (options e) with
    | Some onData => onData data
    | None => data
    end in
  match data with
  | None => Panic
  | Some data =>
    let e := bundleModels now e (Models data) in
    Done (bundleMetrics e (Metrics data))
  end.

(** ** Export path *)

Definition onViewRow (now : Z) (e : Exporter) (viewData : ViewData) (viewRow : Row)
  : run Exporter :=
  match onViewRow_data (options e) viewData viewRow with
  | None =>
    Done (log e LogLevelDebug
            {[ "viewName" := FString (Name (ViewOf viewData));
               "tags" := FTags (tagsMap (Tags viewRow)) ]}
            "ignoring row with no model dimension tags")
  | Some data => bundleData now e (Some data)
  end.

(** The body of the loop over [viewData.Rows]. *)
Definition onViewDataRow (now : Z) (viewData : ViewData) (e : Exporter) (viewRow : Row)
  : run Exporter :=
  match OnViewRow (options e) with
  | Some hook =>
    let '(data, preventDefault) := hook viewData viewRow in
    e ← bundleData now e data;
    if preventDefault then Done e else onViewRow now e viewData viewRow
  | None => onViewRow now e viewData viewRow
  end.

Fixpoint onViewRows (now : Z) (viewData : ViewData) (e : Exporter) (rows : list Row)
  : run Exporter :=
  match rows with
  | [] => Done e
  | viewRow :: rest =>
    e ← onViewDataRow now viewData e viewRow;
    onViewRows now viewData e rest
  end.

Definition onViewData (now : Z) (e : Exporter) (viewData : ViewData) : run Exporter :=
  onViewRows now viewData e (Rows viewData).

(** The loop over [e.ignoredMetrics] returns at the first pattern whose
    [FindString] on the view name is not the empty string. *)
Definition isIgnored (ignored : list Regexp) (name : string) : bool :=
  existsb (fun ignoredMetric => negb (String.eqb (FindString ignoredMetric name) ""))
    ignored.

Definition ExportView (now : Z) (e : Exporter) (viewData : ViewData) : run Exporter :=
  let viewName : gmap string FieldValue :=
    {[ "viewName" := FString (Name (ViewOf viewData)) ]} in
  let e := log e LogLevelDebug viewName "exporting view" in
  if isIgnored (ignoredMetrics e) (Name (ViewOf viewData)) then
    Done (log e LogLevelDebug viewName "ignoring metric")
  else
    match OnViewData (options e) with
    | Some hook =>
      let '(data, preventDefault) := hook viewData in
      if preventDefault then bundleData now e data
      else onViewData now e viewData
    | None => onViewData now e viewData
    end.

(** ** Construction *)

(** "Compile regular expressions for ignored metrics." *)
Fixpoint compileIgnored (names : list string) (ignoredMetrics : list Regexp)
  : result (list Regexp) :=
  match names with
  | [] => Ok ignoredMetrics
  | s :: rest =>
    match regexp_Compile s with
    | Ok r => compileIgnored rest (ignoredMetrics ++ [r])
    | Err err => Err err
    end
  end.

Definition second : Z := 1000000000%Z.
Definition minute : Z := (60 * second)%Z.

Definition NewExporter (options : Options) : result Exporter :=
  let options :=
    if String.eqb (Address options) "" then withAddress options DefaultAddress
    else options in
  match compileIgnored (IgnoredMetricNames options) [] with
  | Err err => Err err
  | Ok ignoredMetrics =>
    match grpc_Dial (Address options) with
    | Err err => Err err
    | Ok conn =>
      let delayThreshold :=
        if (0 <? BundleDelayThreshold options)%Z then BundleDelayThreshold options
        else (1 * second)%Z in
      let countThreshold :=
        if (0 <? BundleCountThreshold options)%Z then BundleCountThreshold options
        else 1000%Z in
      let bundler (A : Type) :=
        setBundleCountThreshold
          (setDelayThreshold (NewBundler A) delayThreshold) countThreshold in
      Ok (mkExporter options ignoredMetrics conn (bundler Model) (bundler Metric)
            (newFreshnessChecker 3600) [] [])
    end
  end.

(** ** Delivery *)

Definition putModels (e : Exporter) (models : list Model) : Exporter :=
  let '(modelStatus, err) :=
    client_PutModels (client e) (1 * minute)
      (APIKeyHeader, APIKey (options e)) true models in
  let e := withSent e (sent e ++ [SentModels models]) in
  let count := FInt (Z.of_nat (length models)) in
  match err with
  | Some _ =>
    log e LogLevelError {[ "error" := FError err; "models" := count ]}
      "unable to send models"
  | None =>
    if (0 <? GetFailed modelStatus)%Z then
      log e LogLevelWarning
        {[ "error" := FError err; "models" := count;
           "failed" := FInt (GetFailed modelStatus) ]}
        "failed to send models"
    else
      log e LogLevelDebug {[ "models" := count ]} "sent models"
  end.

Definition putMetrics (e : Exporter) (metrics : list Metric) : Exporter :=
  let '(metricStatus, err) :=
    client_PutMetrics (client e) (1 * minute)
      (APIKeyHeader, APIKey (options e)) true metrics in
  let e := withSent e (sent e ++ [SentMetrics metrics]) in
  let count := FInt (Z.of_nat (length metrics)) in
  match err with
  | Some _ =>
    log e LogLevelError {[ "error" := FError err; "metrics" := count ]}
      "unable to send metrics"
  | None =>
    if (0 <? GetFailed metricStatus)%Z then
      log e LogLevelWarning
        {[ "error" := FError err; "metrics" := count;
           "failed" := FInt (GetFailed metricStatus) ]}
        "failed to send metrics"
    else
      log e LogLevelDebug {[ "metrics" := count ]} "sent metrics"
  end.

End Exporter.

(** ** Executable instances of the interfaces

    Small models of the libraries, used to run the exporter on concrete
    inputs. *)

(** A fragment of the RE2 syntax of Go's [regexp]: literal characters,
    [.], and a postfix [*] on either, matched leftmost-first with greedy
    repetition.  Patterns that use any other metacharacter are outside
    the fragment and are not compiled by this model. *)
Module Re.

Inductive atom : Type := Lit (c : ascii) | AnyChar.
Inductive item : Type := One (a : atom) | Star (a : atom).

Definition atomOk (a : atom) (c : ascii) : bool :=
  match a with
  | Lit c' => Ascii.eqb c c'
  | AnyChar => negb (Ascii.eqb c "010"%char)
  end.

(** The preferred match of [p] at the start of [s]. *)
Fixpoint matchHere (p : list item) (s : list ascii) : option (list ascii) :=
  match p with
  | [] => Some []
  | One a :: rest =>
    match s with
    | c :: s' => if atomOk a c then cons c <$> matchHere rest s' else None
    | [] => None
    end
  | Star a :: rest =>
    (fix star (s : list ascii) : option (list ascii) :=
       match s with
       | c :: s' =>
         if atomOk a c then
           match star s' with
           | Some m => Some (c :: m)
           | None => matchHere rest s
           end
         else matchHere rest s
       | [] => matchHere rest []
       end) s
  end.

(** The leftmost position with a match decides. *)
Fixpoint search (p : list item) (s : list ascii) : option (list ascii) :=
  match matchHere p s with
  | Some m => Some m
  | None =>
    match s with
    | [] => None
    | _ :: s' => search p s'
    end
  end.

Definition outside (c : ascii) : bool :=
  existsb (Ascii.eqb c)
    (list_ascii_of_string "\+?()[]{}|^$").

Fixpoint parse (cs : list ascii) : result (list item) :=
  match cs with
  | [] => Ok []
  | c :: rest =>
    if Ascii.eqb c "*"%char then
      Err (ErrOther "missing argument to repetition operator: `*`")
    else if outside c then Err (ErrOther "pattern outside the modelled fragment")
    else
      let a := if Ascii.eqb c "."%char then AnyChar else Lit c in
      match rest with
      | star :: rest' =>
        if Ascii.eqb star "*"%char then
          match rest' with
          | star2 :: _ =>
            if Ascii.eqb star2 "*"%char then
              Err (ErrOther "invalid nested repetition operator: `**`")
            else
              match parse rest' with
              | Ok p => Ok (Star a :: p)
              | Err err => Err err
              end
          | [] => Ok [Star a]
          end
        else
          match parse rest with
          | Ok p => Ok (One a :: p)
          | Err err => Err err
          end
      | [] => Ok [One a]
      end
  end.

Definition Compile (s : string) : result (list item) :=
  parse (list_ascii_of_string s).

Definition FindString (re : list item) (s : string) : string :=
  match search re (list_ascii_of_string s) with
  | Some m => string_of_list_ascii m
  | None => ""
  end.

Definition MatchString (re : list item) (s : string) : bool :=
  match search re (list_ascii_of_string s) with
  | Some _ => true
  | None => false
  end.

End Re.

(** An order-independent FNV-1a hash in the manner of [hashstructure]:
    the hashes of the entries of a map are combined with xor. *)
Module Fnv.

Definition offset64 : Z := 14695981039346656037%Z.
Definition prime64 : Z := 1099511628211%Z.

Definition step (h : Z) (c : ascii) : Z :=
  ((Z.lxor h (Z.of_N (N_of_ascii c)) * prime64) `mod` 2 ^ 64)%Z.

Definition hashString (h : Z) (s : string) : Z :=
  fold_left step (list_ascii_of_string s) h.

Definition hashEntry (k v : string) : Z :=
  hashString (hashString offset64 k) v.

Definition hashMap (m : gmap string string) : Z :=
  map_fold (fun k v h => Z.lxor h (hashEntry k v)) offset64 m.

Definition hashValue (v : Value) : Z :=
  match v with
  | StringValue s => hashString offset64 s
  | ListValue vs =>
    fold_left
      (fun h v' =>
         match v' with
         | StringValue s => hashString h s
         | ListValue _ => step h "000"%char
         end)
      vs (step offset64 "001"%char)
  end.

Definition hashFields (m : gmap string Value) : Z :=
  map_fold
    (fun k v h => Z.lxor h (Z.lxor (hashString offset64 k) (hashValue v) * prime64 `mod` 2 ^ 64))
    offset64 m.

End Fnv.

(** A bundler that only buffers: [Add] fails with [ErrOverflow] once
    [buffered + size] would exceed the byte limit. *)
Module Buffer.

Record t (A : Type) : Type := mk {
  items : list A;
  BufferedByteLimit : Z;
  DelayThreshold : Z;
  BundleCountThreshold : Z
}.
Arguments mk {A} _ _ _ _.
Arguments items {A} _.
Arguments BufferedByteLimit {A} _.
Arguments DelayThreshold {A} _.
Arguments BundleCountThreshold {A} _.

Definition new (limit : Z) (A : Type) : t A := mk [] limit 0 0.

Definition Add {A} (b : t A) (item : A) (size : Z) : t A * option error :=
  if (BufferedByteLimit b <? Z.of_nat (length (items b)) + size)%Z
  then (b, Some ErrOverflow)
  else (mk (items b ++ [item]) (BufferedByteLimit b) (DelayThreshold b)
          (BundleCountThreshold b), None).

End Buffer.

(** A data receiver that refuses calls without an API key and rejects the
    records that carry no dimension. *)
Module Receiver.

Definition Dial (address : string) : result string :=
  if existsb (Ascii.eqb ":"%char) (list_ascii_of_string address) then Ok address
  else Err (ErrOther "missing port in address").

Definition respond {A} (dims : A -> gmap string string)
    (header : string * string) (batch : list A)
  : option StatusResult * option error :=
  if String.eqb (snd header) "" then (None, Some (ErrOther "unauthenticated"))
  else
    let failed := length (filter (fun x => bool_decide (dims x = ∅)) batch) in
    (Some (mkStatusResult (Z.of_nat failed)
             (Z.of_nat (length batch - failed))), None).

End Receiver.

#[local] Instance re2Fragment : RegexpLib.
Proof.
  refine {| Regexp := list Re.item;
            regexp_Compile := Re.Compile;
            FindString := Re.FindString;
            MatchString := Re.MatchString |}.
  intros re s. unfold Re.FindString, Re.MatchString.
  destruct (Re.search re (list_ascii_of_string s)); [reflexivity | congruence].
Defined.

#[local] Instance fnvHash : HashLib :=
  {| hashDimensions m := Ok (Fnv.hashMap m);
     hashMetadataFields m := Ok (Fnv.hashFields m) |}.

#[local] Instance bufferOfTwo : BundlerLib :=
  {| Bundler := Buffer.t;
     NewBundler := Buffer.new 2;
     setDelayThreshold A b d :=
       Buffer.mk (Buffer.items b) (Buffer.BufferedByteLimit b) d
         (Buffer.BundleCountThreshold b);
     setBundleCountThreshold A b n :=
       Buffer.mk (Buffer.items b) (Buffer.BufferedByteLimit b)
         (Buffer.DelayThreshold b) n;
     bundler_Add A := Buffer.Add |}.

#[local] Instance receiver : GrpcLib :=
  {| ClientConn := string;
     grpc_Dial := Receiver.Dial;
     client_PutModels conn deadline header detailed models :=
       Receiver.respond Model_Dimensions header models;
     client_PutMetrics conn deadline header detailed metrics :=
       Receiver.respond Metric_Dimensions header metrics |}.

#[local] Instance rangeInOrder : MapRange :=
  {| range_order l := l; range_order_perm l := Permutation_refl l |}.

#[local] Instance rangeReversed : MapRange :=
  {| range_order l := rev l;
     range_order_perm l := Permutation_sym (Permutation_rev l) |}.
(** ** Notions of the specification *)

(** The encoding of one metadata field. *)
Definition isImpactField (k : string) : bool :=
  String.eqb k ImpactFromDimensionsField || String.eqb k ImpactToDimensionsField.

Definition encodeField (k v : string) : Value :=
  if isImpactField k then valueFromStringSlice [v] else valueFromString v.

(** What the specification calls the value of the first row tag that
    matches a configured dimension name. *)
Definition matchedValue (name : string) (tags : list Tag) : option string :=
  TagValue <$> head (filter (fun tag => Key tag = name) tags).

(** The configured-dimension-ordered join of the matched tag values. *)
Definition expectedName (dimensionTags : list string) (tags : list Tag) : string :=
  String.concat "/" (omap (fun name => matchedValue name tags) dimensionTags).

(** The record's own dimension values, joined in configured order. *)
Definition dimensionName (dimensionTags : list string)
    (dimensions : gmap string string) : string :=
  String.concat "/" (omap (fun name => dimensions !! name) dimensionTags).

(** Some tag of the row is named like a configured dimension tag. *)
Definition hasDimensionTag (o : Options) (tags : list Tag) : Prop :=
  exists tag, tag ∈ tags /\ Key tag ∈ ModelDimensionTags o.

(** Row tags with equal keys carry equal values. *)
Definition tagsFunctional (tags : list Tag) : Prop :=
  forall t1 t2, t1 ∈ tags -> t2 ∈ tags -> Key t1 = Key t2 -> TagValue t1 = TagValue t2.

Definition modelName (model : Model) : option Value :=
  Model_MetadataFields model !! NameField.

(** The names of the model records handed to [bundleData] for a row. *)
Definition modelNames (data : option Data) : list (option Value) :=
  match data with
  | Some d => map modelName (Models d)
  | None => []
  end.

(** The dimension set, the metadata set, the timestamp and the model
    record [onViewRow] builds for a row. *)
Definition rowDimensions (o : Options) (tags : list Tag) : gmap string string :=
  copyGlobals (GlobalDimensions o) (fst (pullDimensions (ModelDimensionTags o) tags)).

Definition rowMetadataFields (o : Options) (tags : list Tag) : gmap string string :=
  copyGlobals (GlobalMetadataFields o)
    (addKubernetesImpacts
       (tagsToMetadata (fst (pullDimensions (ModelDimensionTags o) tags)) tags
          {[SourceTypeField := DefaultSourceType]})).

Definition rowTimestamp (viewData : ViewData) : Z :=
  int64_quot (EndUnixNano viewData) 1000000.

Definition rowModel (o : Options) (viewData : ViewData) (tags : list Tag) : Model :=
  mkModel (rowTimestamp viewData) (rowDimensions o tags)
    (metadataFieldsFromMap
       (<[NameField :=
            String.concat "/" (snd (pullDimensions (ModelDimensionTags o) tags))]>
          (copyMap (rowMetadataFields o tags)))).

(** The metadata set of the metric records of a row. *)
Definition metricMetadataFields (o : Options) (viewData : ViewData) (tags : list Tag)
  : gmap string Value :=
  let fields := copyMap (rowMetadataFields o tags) in
  let fields :=
    if String.eqb (Description (ViewOf viewData)) "" then fields
    else <[DescriptionField := Description (ViewOf viewData)]> fields in
  let fields :=
    if String.eqb (MeasureUnit (ViewOf viewData)) "" then fields
    else <[UnitsField := MeasureUnit (ViewOf viewData)]> fields in
  metadataFieldsFromMap fields.

(** The fields logged for a row without dimension tags. *)
Definition ignoredRowFields (viewData : ViewData) (viewRow : Row)
  : gmap string FieldValue :=
  {[ "viewName" := FString (Name (ViewOf viewData));
     "tags" := FTags (tagsMap (Tags viewRow)) ]}.

(** The endpoint [NewExporter] dials. *)
Definition dialAddress (o : Options) : string :=
  if String.eqb (Address o) "" then DefaultAddress else Address o.

Definition noHooks (o : Options) : Prop :=
  OnViewData o = None /\ OnViewRow o = None /\ OnData o = None.

(** ** Sample inputs *)

Definition sampleOptions : Options :=
  mkOptions "" "key" {[ "source" := "app" ]} ∅ ["service"; "zone"] [] 0 0
    None None None true.

Definition sampleView : ViewData :=
  mkViewData (mkView "example.size" "example size" "By") 1500000000123456789 [].

Definition sampleRow : Row :=
  mkRow [mkTag "zone" "z1"; mkTag "service" "s1"; mkTag "other" "o"]
    (DistributionData 10 1%float 9%float 5%float 20%float).

Definition sampleData : Data :=
  default emptyData
    (onViewRow_data (mapRange := rangeInOrder) sampleOptions sampleView sampleRow).

Definition sampleModel : Model := rowModel sampleOptions sampleView (Tags sampleRow).

Definition thirdMetric : Metric :=
  hd (mkMetric "" ∅ ∅ 0 0%float) (drop 2 (Metrics sampleData)).

(** A row whose two tags share a key, and the same tags swapped. *)
Definition twiceTagged : Row :=
  mkRow [mkTag "service" "s1"; mkTag "service" "s2"] (CountData 1).

Definition twiceTaggedSwapped : list Tag :=
  [mkTag "service" "s2"; mkTag "service" "s1"].

Definition untaggedRow : Row := mkRow [mkTag "other" "o"] (CountData 1).

Definition anonymousModel : Model := mkModel 0 ∅ ∅.

(** A global dimension named like a configured dimension tag. *)
Definition overridingOptions : Options :=
  mkOptions "" "key" {[ "service" := "global" ]} ∅ ["service"; "zone"] [] 0 0
    None None None true.

(** An ignore pattern that matches every name, with an empty match on
    names without an [x]. *)
Definition ignoringOptions : Options :=
  mkOptions "" "key" ∅ ∅ ["service"] ["x*"] 0 0 None None None false.

Definition fooView : ViewData :=
  mkViewData (mkView "foo" "" "") 0 [mkRow [mkTag "service" "s1"] (CountData 1)].

(** A configuration that names neither an API key nor an endpoint. *)
Definition bareOptions : Options :=
  mkOptions "" "" ∅ ∅ [] [] 0 0 None None None false.

Definition badPatternOptions : Options :=
  mkOptions "" "key" ∅ ∅ [] ["foo"; "*"] 0 0 None None None false.

(** Exporter states over the sample instances; each bundler holds at most
    two records. *)
Definition sampleExporter : Exporter :=
  mkExporter sampleOptions [] DefaultAddress
    (Buffer.new 2 Model) (Buffer.new 2 Metric) (newFreshnessChecker 3600) [] [].

Definition bareExporter : Exporter :=
  mkExporter (withAddress bareOptions DefaultAddress) [] DefaultAddress
    (Buffer.new 2 Model) (Buffer.new 2 Metric) (newFreshnessChecker 3600) [] [].

(** The exporter [NewExporter] builds from [ignoringOptions]. *)
Definition ignoringExporter : Exporter :=
  mkExporter (withAddress ignoringOptions DefaultAddress)
    [[Re.Star (Re.Lit "x"%char)]] DefaultAddress
    (setBundleCountThreshold (setDelayThreshold (NewBundler Model) second) 1000)
    (setBundleCountThreshold (setDelayThreshold (NewBundler Metric) second) 1000)
    (newFreshnessChecker 3600) [] [].

(** [sampleExporter] after the model and the first two metrics of
    [sampleData] were offered to its bundlers. *)
Definition twoMetricsIn : Exporter :=
  bundleMetrics (bundleModels 0 sampleExporter (Models sampleData))
    (take 2 (Metrics sampleData)).

(** How many models and metrics an export left in the sample bundlers. *)
Definition buffered (r : run Exporter) : option (nat * nat) :=
  match r with
  | Done e =>
    Some (length (Buffer.items (modelsBundler e)),
          length (Buffer.items (metricsBundler e)))
  | Panic => None
  end.

Definition constructionError (r : result Exporter) : option error :=
  match r with
  | Ok _ => None
  | Err err => Some err
  end.

(** ** Further notions *)

(** The value of the last row tag named [name]: a later assignment to the
    same map key replaces an earlier one. *)
Definition lastTagValue (name : string) (tags : list Tag) : option string :=
  TagValue <$> last (filter (fun tag => Key tag = name) tags).

(** The impact relation [addKubernetesImpacts] builds. *)
Definition impactOf (cluster namespace pod : string) : string :=
  "k8s.cluster=" ++ cluster ++ ",k8s.namespace=" ++ namespace ++ ",k8s.pod=" ++ pod.

(** Whether a field is present with a non-empty value. *)
Definition nonEmptyField (m : gmap string string) (k : string) : Prop :=
  exists v, m !! k = Some v /\ v <> "".

(** ** The tagged-metrics exporter ([zenoss/zenoss.go])

    The variant of the exporter that sends every row as tagged metrics to
    an output client.  The client is an interface value: [None] is nil.
    All metrics of one row point to one [tags] map, which [addMetric]
    updates in place: the map is kept once per row, in [sharedTags]. *)
Module Tagged.

Definition SourceField : string := "source".

Record TaggedMetric : Type := mkTaggedMetric {
  TaggedMetric_Metric : string;
  TaggedMetric_Timestamp : Z;
  TaggedMetric_Value : float64;
  TaggedMetric_Tags : gmap string string
}.

Section Client.
Context {Client : Type}.

Record Options : Type := mkOptions {
  Output : option Client;
  Source : string;
  SourceType : string;
  ExtraTags : gmap string string
}.

Record Exporter : Type := mkExporter {
  options : Options;
  output : option Client
}.

(** [&Exporter{}] *)
Definition zeroExporter : Exporter := mkExporter (mkOptions None "" "" ∅) None.

Definition SetOptions (e : Exporter) (o : Options) : Exporter * option error :=
  match Output o with
  | None => (e, Some (ErrOther "zenoss.Options.Output must be specified"))
  | Some _ =>
    let o :=
      if String.eqb (SourceType o) ""
      then mkOptions (Output o) (Source o) DefaultSourceType (ExtraTags o)
      else o in
    (mkExporter o (Output o), None)
  end.

Definition NewExporter (o : Options) : result Exporter :=
  match SetOptions zeroExporter o with
  | (_, Some err) => Err err
  | (e, None) => Ok e
  end.

(** The metrics of one row: the map they share and, in order, their names
    and values. *)
Record RowBatch : Type := mkRowBatch {
  sharedTags : gmap string string;
  entries : list (string * float64)
}.

(** The closure [addMetric]; [tags] is the row's map. *)
Definition addMetric (viewData : ViewData) (batch : RowBatch)
    (name : string) (value : float64) : RowBatch :=
  let tags := sharedTags batch in
  let description := Description (ViewOf viewData) in
  let tags :=
    if String.eqb description "" then tags
    else <[DescriptionField := description]> tags in
  let units := MeasureUnit (ViewOf viewData) in
  let tags :=
    if String.eqb units "" then tags else <[UnitsField := units]> tags in
  mkRowBatch tags (entries batch ++ [(name, value)]).

(** The [tags] map of a row before any metric is added. *)
Definition rowTags (o : Options) (viewRow : Row) : gmap string string :=
  let tags := fold_left (fun m rowTag => <[Key rowTag := TagValue rowTag]> m)
                (Tags viewRow) ∅ in
  let tags := map_fold (fun k v m => <[k := v]> m) tags (ExtraTags o) in
  let tags :=
    if String.eqb (Source o) "" then tags else <[SourceField := Source o]> tags in
  if String.eqb (SourceType o) "" then tags
  else <[SourceTypeField := SourceType o]> tags.

Section Rows.
Context {mapRange : MapRange}.

(** The body of the loop over [viewData.Rows]. *)
Definition exportRow (e : Exporter) (viewData : ViewData) (viewRow : Row) : RowBatch :=
  let batch := mkRowBatch (rowTags (options e) viewRow) [] in
  let name := Name (ViewOf viewData) in
  match RowData viewRow with
  | CountData v => addMetric viewData batch name (float64_of_int64 v)
  | SumData v => addMetric viewData batch name v
  | LastValueData v => addMetric viewData batch name v
  | DistributionData Count Min Max Mean SumOfSquaredDev =>
    fold_left
      (fun batch p => addMetric viewData batch (name ++ "/" ++ fst p) (snd p))
      (range_order (distributionParams Count Min Max Mean SumOfSquaredDev))
      batch
  | NilData => batch
  end.

(** The metrics of a row as the output client reads them. *)
Definition batchMetrics (timestamp : Z) (batch : RowBatch) : list TaggedMetric :=
  map (fun p => mkTaggedMetric (fst p) timestamp (snd p) (sharedTags batch))
    (entries batch).

(** [ExportView]: the call of [PutMetrics] made, if any; its result is
    discarded.  A call on a nil output panics. *)
Definition ExportView (e : Exporter) (viewData : ViewData)
  : run (option (Client * list TaggedMetric)) :=
  let timestamp := int64_quot (EndUnixNano viewData) 1000000 in
  let metrics :=
    flat_map (fun viewRow => batchMetrics timestamp (exportRow e viewData viewRow))
      (Rows viewData) in
  if (length metrics =? 0)%nat then Done None
  else
    match output e with
    | Some out => Done (Some (out, metrics))
    | None => Panic
    end.

End Rows.
End Client.

Arguments Options : clear implicits.
Arguments Exporter : clear implicits.

End Tagged.

(** What a row contributes to the tagged metrics: one record for a scalar
    aggregation, five for a distribution, none without data. *)
Definition metricCount (rowData : AggregationData) : nat :=
  match rowData with
  | CountData _ | SumData _ | LastValueData _ => 1
  | DistributionData _ _ _ _ _ => 5
  | NilData => 0
  end.

(** The tag a tagged metric of a row carries under [k]: units, description,
    source type and source come before the extra tags, and these before
    the row's own tags. *)
Definition expectedTag {Client : Type} (o : Tagged.Options Client) (viewData : ViewData)
    (viewRow : Row) (k : string) : option string :=
  if bool_decide (k = "units" /\ MeasureUnit (ViewOf viewData) <> "")
  then Some (MeasureUnit (ViewOf viewData))
  else if bool_decide (k = "description" /\ Description (ViewOf viewData) <> "")
  then Some (Description (ViewOf viewData))
  else if bool_decide (k = "source-type" /\ Tagged.SourceType o <> "")
  then Some (Tagged.SourceType o)
  else if bool_decide (k = "source" /\ Tagged.Source o <> "")
  then Some (Tagged.Source o)
  else match Tagged.ExtraTags o !! k with
       | Some v => Some v
       | None => lastTagValue k (Tags viewRow)
       end.

(** What [addMetric] makes of the tags of a row. *)
Definition withDescriptionAndUnits (vd : ViewData) (tags : gmap string string)
  : gmap string string :=
  Tagged.sharedTags
    (Tagged.addMetric vd (Tagged.mkRowBatch tags []) "" 0%float).

(** ** Further sample inputs *)

(** Cluster, namespace and pod given as global metadata fields only. *)
Definition globalK8sOptions : Options :=
  mkOptions "" "key" ∅
    {[ "k8s.cluster" := "c1"; "k8s.namespace" := "ns1"; "k8s.pod" := "p1";
       "team" := "core" ]}
    ["service"] [] 0 0 None None None true.

(** Cluster, namespace and pod given as row tags. *)
Definition k8sRow : Row :=
  mkRow [mkTag "service" "s1"; mkTag "k8s.cluster" "c1";
         mkTag "k8s.namespace" "ns1"; mkTag "k8s.pod" "p1"] (CountData 1).

Definition k8sData : Data :=
  default emptyData
    (onViewRow_data (mapRange := rangeInOrder) sampleOptions sampleView k8sRow).

Definition k8sModel : Model := rowModel sampleOptions sampleView (Tags k8sRow).

Definition globalK8sData : Data :=
  default emptyData
    (onViewRow_data (mapRange := rangeInOrder) globalK8sOptions sampleView sampleRow).

Definition globalK8sModel : Model :=
  rowModel globalK8sOptions sampleView (Tags sampleRow).

(** An exporter whose ignore pattern [fo*] has a non-empty match on
    [foo]. *)
Definition skippingExporter : Exporter :=
  mkExporter (withAddress ignoringOptions DefaultAddress)
    [[Re.One (Re.Lit "f"%char); Re.Star (Re.Lit "o"%char)]] DefaultAddress
    (Buffer.new 2 Model) (Buffer.new 2 Metric) (newFreshnessChecker 3600) [] [].

(** A row hook that returns no data. *)
Definition nilHook (viewData : ViewData) (viewRow : Row) : option Data * bool :=
  (None, false).

Definition nilHookExporter : Exporter :=
  mkExporter
    (mkOptions DefaultAddress "key" ∅ ∅ ["service"] [] 0 0 None (Some nilHook) None false)
    [] DefaultAddress
    (Buffer.new 2 Model) (Buffer.new 2 Metric) (newFreshnessChecker 3600) [] [].

(** A tagged-metrics exporter over clients named by strings. *)
Definition taggedOptions : Tagged.Options string :=
  Tagged.mkOptions (Some "collector") "app" "" {[ "env" := "prod"; "zone" := "z0" ]}.

Definition taggedExporter : Tagged.Exporter string :=
  Tagged.mkExporter
    (Tagged.mkOptions (Some "collector") "app" DefaultSourceType
       {[ "env" := "prod"; "zone" := "z0" ]})
    (Some "collector").

Definition sampleTaggedMetrics : list Tagged.TaggedMetric :=
  Tagged.batchMetrics 0
    (Tagged.exportRow (mapRange := rangeInOrder) taggedExporter sampleView sampleRow).

Definition firstTaggedMetric : Tagged.TaggedMetric :=
  hd (Tagged.mkTaggedMetric "" 0 0%float ∅) sampleTaggedMetrics.


(** [sampleModel] reported again, with a later timestamp. *)
Definition laterModel : Model :=
  mkModel 99 (Model_Dimensions sampleModel) (Model_MetadataFields sampleModel).

(** An exporter whose bundlers refuse every record. *)
Definition fullExporter : Exporter :=
  mkExporter sampleOptions [] DefaultAddress
    (Buffer.new 0 Model) (Buffer.new 0 Metric) (newFreshnessChecker 3600) [] [].


Section LogNotions.
Context {regexpLib : RegexpLib} {bundlerLib : BundlerLib} {grpcLib : GrpcLib}.

(** [e'] has the options and the outbound calls of [e], and its log is
    that of [e] followed by at most [n] calls, all at error level. *)
Definition onlyErrorsLogged (n : nat) (e e' : Exporter) : Prop :=
  options e' = options e /\ sent e' = sent e /\
  exists calls,
    logged e' = (logged e ++ calls)%list /\
    (length calls <= n)%nat /\
    Forall (fun call => log_level call = LogLevelError) calls.

End LogNotions.

(** * Properties *)

(** ** Facts about the map loops *)

(** A [range] loop that stores [g k v] under every key [k] of [m]. *)
Lemma map_fold_insert_lookup {A B} (g : string -> A -> B)
    (acc : gmap string B) (m : gmap string A) (k : string) :
  map_fold (fun k v r => <[k := g k v]> r) acc m !! k =
  match m !! k with Some v => Some (g k v) | None => acc !! k end.
Proof.
  revert k.
  apply (map_fold_weak_ind
           (fun r m => forall k, r !! k =
              match m !! k with Some v => Some (g k v) | None => acc !! k end)).
  - intros k. by rewrite lookup_empty.
  - intros i x m' r Hi IH k.
    destruct (decide (i = k)) as [->|Hne].
    + by rewrite !lookup_insert_eq.
    + rewrite !lookup_insert_ne by done. apply IH.
Qed.

Lemma copyMap_id (m : gmap string string) : copyMap m = m.
Proof.
  apply map_eq. intros k. unfold copyMap.
  rewrite (map_fold_insert_lookup (fun _ v => v)).
  destruct (m !! k); [done | apply lookup_empty].
Qed.

Lemma metadataFieldsFromMap_lookup (m : gmap string string) (k : string) :
  metadataFieldsFromMap m !! k = encodeField k <$> m !! k.
Proof.
  revert k. unfold metadataFieldsFromMap.
  apply (map_fold_weak_ind
           (fun (r : gmap string Value) (m : gmap string string) =>
              forall k, r !! k = encodeField k <$> m !! k)).
  - intros k. by rewrite !lookup_empty.
  - intros i x m' r Hi IH k. fold (isImpactField i).
    destruct (decide (i = k)) as [->|Hne].
    + unfold encodeField.
      destruct (isImpactField k); by rewrite !lookup_insert_eq.
    + destruct (isImpactField i); rewrite !lookup_insert_ne by done; apply IH.
Qed.

Lemma isImpactField_spec (k : string) :
  isImpactField k = bool_decide (k = "impactFromDimensions" \/ k = "impactToDimensions").
Proof.
  unfold isImpactField, ImpactFromDimensionsField, ImpactToDimensionsField.
  destruct (String.eqb_spec k "impactFromDimensions") as [->|H1]; [done|].
  destruct (String.eqb_spec k "impactToDimensions") as [->|H2]; [done|].
  symmetry. apply bool_decide_eq_false. intros [?|?]; done.
Qed.

(** C10. Converting a metadata map to the outbound structure wraps the
    values of [impactFromDimensions] and [impactToDimensions] in a list
    holding exactly one string value, encodes every other field as a
    plain string value, and keeps exactly the key set of the map. *)
Theorem metadataFieldsFromMap_encoding (m : gmap string string) :
  (forall k : string,
     metadataFieldsFromMap m !! k =
     (fun v => if bool_decide (k = "impactFromDimensions" \/ k = "impactToDimensions")
               then ListValue [StringValue v]
               else StringValue v) <$> m !! k)
  /\ dom (metadataFieldsFromMap m) = dom m.
Proof.
  split.
  - intros k. rewrite metadataFieldsFromMap_lookup.
    unfold encodeField. rewrite isImpactField_spec.
    by destruct (m !! k); simpl; [case_bool_decide|].
  - apply set_eq. intros k. rewrite !elem_of_dom.
    rewrite metadataFieldsFromMap_lookup. apply fmap_is_Some.
Qed.

(** ** The tag/field mapper *)

Lemma firstTagValue_matchedValue (name : string) (tags : list Tag) :
  firstTagValue name tags = matchedValue name tags.
Proof.
  unfold matchedValue. induction tags as [|tag tags IH]; [done|].
  cbn [firstTagValue]. rewrite filter_cons.
  destruct (String.eqb_spec (Key tag) name) as [Heq|Hne].
  - by rewrite decide_True.
  - by rewrite decide_False.
Qed.

Lemma pullDimensions_fold (tags : list Tag) (names : list string)
    (acc : gmap string string * list string) :
  snd (fold_left (pullStep tags) names acc) =
  (snd acc ++ omap (fun name => firstTagValue name tags) names)%list.
Proof.
  revert acc. induction names as [|name names IH]; intros acc; cbn.
  - by rewrite app_nil_r.
  - rewrite IH. unfold pullStep.
    destruct (firstTagValue name tags); cbn; [by rewrite <- app_assoc | done].
Qed.

Lemma pullDimensions_nameParts (names : list string) (tags : list Tag) :
  snd (pullDimensions names tags) = omap (fun name => firstTagValue name tags) names.
Proof. unfold pullDimensions. by rewrite pullDimensions_fold. Qed.

Lemma pullStep_lookup (tags : list Tag) (acc : gmap string string * list string)
    (d name : string) :
  fst (pullStep tags acc d) !! name =
  if decide (name = d)
  then match firstTagValue d tags with
       | Some v => Some v
       | None => fst acc !! name
       end
  else fst acc !! name.
Proof.
  unfold pullStep. destruct (firstTagValue d tags) as [v|]; cbn.
  - case_decide as Hd; [subst; apply lookup_insert_eq | by rewrite lookup_insert_ne].
  - by case_decide.
Qed.

Lemma pullDimensions_fold_lookup (tags : list Tag) (names : list string)
    (acc : gmap string string * list string) (name : string) :
  fst (fold_left (pullStep tags) names acc) !! name =
  if decide (name ∈ names)
  then match firstTagValue name tags with
       | Some v => Some v
       | None => fst acc !! name
       end
  else fst acc !! name.
Proof.
  revert acc. induction names as [|d names IH]; intros acc; cbn.
  - by rewrite decide_False by apply not_elem_of_nil.
  - rewrite IH, pullStep_lookup.
    destruct (decide (name = d)) as [->|Hne].
    + rewrite (decide_True (P := d ∈ d :: names)) by apply list_elem_of_here.
      case_decide; by destruct (firstTagValue d tags).
    + destruct (decide (name ∈ names)) as [Hin|Hnin].
      * by rewrite decide_True by by apply list_elem_of_further.
      * rewrite decide_False; [done|]. by intros [?|?]%elem_of_cons.
Qed.

Lemma pullDimensions_lookup (names : list string) (tags : list Tag) (name : string) :
  fst (pullDimensions names tags) !! name =
  if decide (name ∈ names) then firstTagValue name tags else None.
Proof.
  unfold pullDimensions. rewrite pullDimensions_fold_lookup. cbn.
  rewrite lookup_empty. case_decide; [|done]. by destruct (firstTagValue name tags).
Qed.

Lemma firstTagValue_None (name : string) (tags : list Tag) :
  firstTagValue name tags = None <-> forall tag, tag ∈ tags -> Key tag <> name.
Proof.
  induction tags as [|tag tags IH]; cbn.
  - split; [|done]. by intros _ tag ?%not_elem_of_nil.
  - destruct (String.eqb_spec (Key tag) name) as [Heq|Hne].
    + split; [done|]. intros Hall. exfalso. apply (Hall tag); [left | done].
    + rewrite IH. split.
      * intros Hall t [->|Hin]%elem_of_cons; auto.
      * intros Hall t Hin. apply Hall. by right.
Qed.

Lemma omap_nil_iff {A B} (f : A -> option B) (l : list A) :
  omap f l = [] <-> forall x, x ∈ l -> f x = None.
Proof.
  induction l as [|a l IH]; cbn.
  - split; [|done]. by intros _ x ?%not_elem_of_nil.
  - destruct (f a) eqn:Hfa.
    + split; [done|]. intros Hall. specialize (Hall a (list_elem_of_here _ _)). congruence.
    + rewrite IH. split.
      * intros Hall x [->|Hin]%elem_of_cons; auto.
      * intros Hall x Hin. apply Hall. by right.
Qed.

Lemma nameParts_nil (o : Options) (tags : list Tag) :
  snd (pullDimensions (ModelDimensionTags o) tags) = [] <-> ~ hasDimensionTag o tags.
Proof.
  rewrite pullDimensions_nameParts, omap_nil_iff. unfold hasDimensionTag. split.
  - intros Hall (tag & Hin & Hk).
    specialize (Hall _ Hk). rewrite firstTagValue_None in Hall. by eapply Hall.
  - intros Hno d Hd. apply firstTagValue_None. intros tag Hin Hk.
    apply Hno. exists tag. by rewrite Hk.
Qed.

Lemma firstTagValue_Some (name : string) (tags : list Tag) (v : string) :
  firstTagValue name tags = Some v ->
  exists tag, tag ∈ tags /\ Key tag = name /\ TagValue tag = v.
Proof.
  induction tags as [|tag tags IH]; cbn; [done|].
  destruct (String.eqb_spec (Key tag) name) as [Heq|Hne].
  - intros [= <-]. exists tag. split; [left | done].
  - intros (t & Hin & Hk)%IH. exists t. split; [by right | done].
Qed.

Lemma firstTagValue_perm (name : string) (tags tags' : list Tag) :
  tags ≡ₚ tags' -> tagsFunctional tags ->
  firstTagValue name tags = firstTagValue name tags'.
Proof.
  intros Hperm Hfun.
  destruct (firstTagValue name tags) as [v|] eqn:Hv;
    destruct (firstTagValue name tags') as [v'|] eqn:Hv'; try done.
  - apply firstTagValue_Some in Hv as (t & Hin & Hk & <-).
    apply firstTagValue_Some in Hv' as (t' & Hin' & Hk' & <-).
    f_equal. apply Hfun; [done | by rewrite Hperm | congruence].
  - apply firstTagValue_Some in Hv as (t & Hin & Hk & _).
    rewrite firstTagValue_None in Hv'. destruct (Hv' t); [by rewrite <- Hperm | done].
  - apply firstTagValue_Some in Hv' as (t & Hin & Hk & _).
    rewrite firstTagValue_None in Hv. destruct (Hv t); [by rewrite Hperm | done].
Qed.

Lemma nameParts_perm (names : list string) (tags tags' : list Tag) :
  tags ≡ₚ tags' -> tagsFunctional tags ->
  snd (pullDimensions names tags) = snd (pullDimensions names tags').
Proof.
  intros Hperm Hfun. rewrite !pullDimensions_nameParts.
  induction names as [|d names IH]; cbn; [done|].
  by rewrite (firstTagValue_perm d tags tags'), IH.
Qed.

Lemma nameParts_expectedName (names : list string) (tags : list Tag) :
  String.concat "/" (snd (pullDimensions names tags)) = expectedName names tags.
Proof.
  rewrite pullDimensions_nameParts. unfold expectedName. f_equal.
  induction names as [|d names IH]; cbn; [done|].
  by rewrite firstTagValue_matchedValue, IH.
Qed.

Lemma hasDimensionTag_dec (o : Options) (tags : list Tag) :
  hasDimensionTag o tags \/ ~ hasDimensionTag o tags.
Proof.
  destruct (snd (pullDimensions (ModelDimensionTags o) tags)) as [|v parts] eqn:Hparts.
  - right. by apply nameParts_nil.
  - left. rewrite pullDimensions_nameParts in Hparts.
    assert (v ∈ omap (fun name => firstTagValue name tags) (ModelDimensionTags o))
      as (d & Hd & Hv)%list_elem_of_omap by (rewrite Hparts; left).
    apply firstTagValue_Some in Hv as (tag & Hin & Hk & _).
    exists tag. by rewrite Hk.
Qed.

Lemma hasDimensionTag_perm (o : Options) (tags tags' : list Tag) :
  tags ≡ₚ tags' -> hasDimensionTag o tags -> hasDimensionTag o tags'.
Proof. intros Hperm (t & Hin & Hk). exists t. by rewrite <- Hperm. Qed.

(** ** The row translator *)

Section TranslationFacts.
Context {mapRange : MapRange}.

Lemma addMetric_Models vd md dims ts data name value :
  Models (addMetric vd md dims ts data name value) = Models data.
Proof. done. Qed.

Lemma rowMetrics_Models vd md dims ts data rowData :
  Models (rowMetrics vd md dims ts data rowData) = Models data.
Proof.
  destruct rowData; try done. cbn.
  generalize (range_order (distributionParams Count Min Max Mean SumOfSquaredDev)).
  intros l. revert data. induction l as [|p l IH]; intros data; cbn; [done|].
  by rewrite IH.
Qed.

Lemma onViewRow_data_Some (o : Options) (vd : ViewData) (row : Row) :
  hasDimensionTag o (Tags row) ->
  onViewRow_data o vd row =
  Some (rowMetrics vd (rowMetadataFields o (Tags row)) (rowDimensions o (Tags row))
          (rowTimestamp vd)
          (AddModel emptyData (rowModel o vd (Tags row))) (RowData row)).
Proof.
  intros Hdim. unfold onViewRow_data.
  destruct (pullDimensions (ModelDimensionTags o) (Tags row)) as [dims parts] eqn:Hpull.
  assert (parts <> []) as Hparts.
  { intros ->. apply (proj1 (nameParts_nil o (Tags row))); [by rewrite Hpull | done]. }
  destruct parts as [|part parts]; [done|]. cbn [length Nat.eqb].
  unfold rowMetadataFields, rowDimensions, rowModel, rowMetadataFields, rowDimensions,
    rowTimestamp.
  by rewrite Hpull.
Qed.

Lemma onViewRow_data_None (o : Options) (vd : ViewData) (row : Row) :
  ~ hasDimensionTag o (Tags row) -> onViewRow_data o vd row = None.
Proof.
  intros Hdim%nameParts_nil. unfold onViewRow_data.
  destruct (pullDimensions (ModelDimensionTags o) (Tags row)) as [dims parts].
  cbn in Hdim. by subst parts.
Qed.

Lemma onViewRow_data_Models (o : Options) (vd : ViewData) (row : Row) :
  hasDimensionTag o (Tags row) ->
  exists data, onViewRow_data o vd row = Some data /\
               Models data = [rowModel o vd (Tags row)].
Proof.
  intros Hdim. eexists. split; [by apply onViewRow_data_Some|].
  by rewrite rowMetrics_Models.
Qed.

Lemma rowModel_name (o : Options) (vd : ViewData) (tags : list Tag) :
  modelName (rowModel o vd tags) =
  Some (StringValue (expectedName (ModelDimensionTags o) tags)).
Proof.
  unfold modelName, rowModel. cbn.
  rewrite metadataFieldsFromMap_lookup, lookup_insert_eq. cbn.
  by rewrite nameParts_expectedName.
Qed.

End TranslationFacts.

Lemma copyGlobals_lookup (globals target : gmap string string) (k : string) :
  copyGlobals globals target !! k =
  match globals !! k with Some v => Some v | None => target !! k end.
Proof. unfold copyGlobals. apply (map_fold_insert_lookup (fun _ v => v)). Qed.

Lemma sampleRow_hasDimensionTag (o : Options) (tag : Tag) (tags : list Tag) :
  Key tag ∈ ModelDimensionTags o -> hasDimensionTag o (tag :: tags).
Proof. intros Hk. exists tag. split; [apply list_elem_of_here | exact Hk]. Defined.

(** C1 (amended). For every row with at least one tag whose key is a
    configured dimension tag name, exactly one model record is built and
    its [name] field is the values of the matched tags joined by "/" in
    the order of the configured list, the first row tag matching a name
    deciding; the name is the same for every permutation of the row's tags
    provided tags with equal keys carry equal values. *)
Theorem model_name_joins_matched_tags {mapRange : MapRange}
    (o : Options) (vd : ViewData) (row : Row) :
  hasDimensionTag o (Tags row) ->
  exists data model,
    onViewRow_data o vd row = Some data /\
    Models data = [model] /\
    modelName model = Some (StringValue (expectedName (ModelDimensionTags o) (Tags row))) /\
    forall tags',
      Tags row ≡ₚ tags' -> tagsFunctional (Tags row) ->
      exists data' model',
        onViewRow_data o vd (mkRow tags' (RowData row)) = Some data' /\
        Models data' = [model'] /\
        modelName model' = modelName model.
Proof.
  intros Hdim.
  destruct (onViewRow_data_Models o vd row Hdim) as (data & Hdata & Hmodels).
  exists data, (rowModel o vd (Tags row)). repeat split; try done.
  - apply rowModel_name.
  - intros tags' Hperm Hfun.
    assert (hasDimensionTag o (Tags (mkRow tags' (RowData row)))) as Hdim'
      by by eapply hasDimensionTag_perm.
    destruct (onViewRow_data_Models o vd _ Hdim') as (data' & Hdata' & Hmodels').
    exists data', (rowModel o vd tags'). repeat split; try done.
    rewrite !rowModel_name, <- !nameParts_expectedName.
    by rewrite (nameParts_perm _ (Tags row) tags').
Qed.

Lemma model_name_joins_matched_tags_witness :
  hasDimensionTag sampleOptions (Tags sampleRow) /\
  exists data model,
    onViewRow_data (mapRange := rangeInOrder) sampleOptions sampleView sampleRow = Some data /\
    Models data = [model] /\
    modelName model =
      Some (StringValue (expectedName (ModelDimensionTags sampleOptions) (Tags sampleRow))) /\
    forall tags',
      Tags sampleRow ≡ₚ tags' -> tagsFunctional (Tags sampleRow) ->
      exists data' model',
        onViewRow_data (mapRange := rangeInOrder) sampleOptions sampleView
          (mkRow tags' (RowData sampleRow)) = Some data' /\
        Models data' = [model'] /\
        modelName model' = modelName model.
Proof.
  assert (hasDimensionTag sampleOptions (Tags sampleRow)) as Hdim.
  { apply sampleRow_hasDimensionTag. cbn. apply list_elem_of_further, list_elem_of_here. }
  split; [exact Hdim|].
  exact (model_name_joins_matched_tags (mapRange := rangeInOrder)
           sampleOptions sampleView sampleRow Hdim).
Defined.

Example sampleRow_name :
  modelNames (onViewRow_data (mapRange := rangeInOrder) sampleOptions sampleView sampleRow)
  = [Some (StringValue "s1/z1")].
Proof. vm_compute. reflexivity. Qed.

(** C1 as stated fails: two tags with the same key can be permuted, and
    the first one decides the name. *)
Lemma model_name_not_permutation_invariant :
  ~ (forall (o : Options) (vd : ViewData) (row : Row) (tags' : list Tag),
       hasDimensionTag o (Tags row) ->
       Tags row ≡ₚ tags' ->
       modelNames (onViewRow_data (mapRange := rangeInOrder) o vd (mkRow tags' (RowData row))) =
       modelNames (onViewRow_data (mapRange := rangeInOrder) o vd row)).
Proof.
  intros Hclaim.
  specialize (Hclaim sampleOptions sampleView twiceTagged twiceTaggedSwapped).
  assert (modelNames (onViewRow_data (mapRange := rangeInOrder) sampleOptions sampleView
                        (mkRow twiceTaggedSwapped (RowData twiceTagged)))
          = [Some (StringValue "s2")]) as Hswapped by (vm_compute; reflexivity).
  assert (modelNames (onViewRow_data (mapRange := rangeInOrder) sampleOptions sampleView twiceTagged)
          = [Some (StringValue "s1")]) as Hrow by (vm_compute; reflexivity).
  rewrite Hswapped, Hrow in Hclaim.
  assert ([Some (StringValue "s2")] = [Some (StringValue "s1")]) as Heq.
  { apply Hclaim.
    - apply sampleRow_hasDimensionTag. cbn. apply list_elem_of_here.
    - apply perm_swap. }
  discriminate Heq.
Qed.

(** C9 (amended). The name of every model record built for a row equals
    the record's own dimension values joined by "/" in configured order
    whenever no global dimension is named like a configured dimension
    tag. *)
Theorem model_name_joins_own_dimensions {mapRange : MapRange}
    (o : Options) (vd : ViewData) (row : Row) (data : Data) (model : Model) :
  (forall d, d ∈ ModelDimensionTags o -> GlobalDimensions o !! d = None) ->
  onViewRow_data o vd row = Some data ->
  model ∈ Models data ->
  modelName model =
  Some (StringValue (dimensionName (ModelDimensionTags o) (Model_Dimensions model))).
Proof.
  intros Hglobals Hdata Hin.
  destruct (hasDimensionTag_dec o (Tags row)) as [Hdim|Hdim].
  2: { by rewrite onViewRow_data_None in Hdata. }
  destruct (onViewRow_data_Models o vd row Hdim) as (data' & Hdata' & Hmodels).
  rewrite Hdata in Hdata'. injection Hdata' as <-.
  rewrite Hmodels in Hin. apply list_elem_of_singleton in Hin as ->.
  rewrite rowModel_name. do 2 f_equal.
  rewrite <- nameParts_expectedName, pullDimensions_nameParts.
  unfold dimensionName, rowModel, rowDimensions. cbn. f_equal.
  assert (forall names : list string, (forall d, d ∈ names -> d ∈ ModelDimensionTags o) ->
            omap (fun name => firstTagValue name (Tags row)) names =
            omap (fun name =>
                    copyGlobals (GlobalDimensions o)
                      (fst (pullDimensions (ModelDimensionTags o) (Tags row))) !! name)
                 names) as Hall.
  { induction names as [|d names IH]; intros Hsub; cbn; [done|].
    rewrite copyGlobals_lookup, Hglobals by (apply Hsub; left).
    rewrite pullDimensions_lookup, decide_True by (apply Hsub; left).
    rewrite IH; [done|]. intros d' Hd'. apply Hsub. by right. }
  by apply Hall.
Qed.

Lemma model_name_joins_own_dimensions_witness :
  ((forall d, d ∈ ModelDimensionTags sampleOptions ->
              GlobalDimensions sampleOptions !! d = None) /\
   onViewRow_data (mapRange := rangeInOrder) sampleOptions sampleView sampleRow = Some sampleData /\
   sampleModel ∈ Models sampleData) /\
  modelName sampleModel =
  Some (StringValue (dimensionName (ModelDimensionTags sampleOptions)
                       (Model_Dimensions sampleModel))).
Proof.
  assert (forall d, d ∈ ModelDimensionTags sampleOptions ->
                    GlobalDimensions sampleOptions !! d = None) as Hglobals.
  { intros d Hd. cbn in Hd.
    apply elem_of_cons in Hd as [->|Hd]; [reflexivity|].
    apply list_elem_of_singleton in Hd as ->. reflexivity. }
  assert (onViewRow_data (mapRange := rangeInOrder) sampleOptions sampleView sampleRow
          = Some sampleData) as Hdata by (vm_compute; reflexivity).
  assert (sampleModel ∈ Models sampleData) as Hin.
  { assert (Models sampleData = [sampleModel]) as -> by (vm_compute; reflexivity).
    apply list_elem_of_here. }
  split; [by repeat split|].
  exact (model_name_joins_own_dimensions (mapRange := rangeInOrder)
           sampleOptions sampleView sampleRow sampleData sampleModel
           Hglobals Hdata Hin).
Defined.

(** C9 as stated fails: a global dimension named like a configured
    dimension tag replaces the dimension value after the name parts were
    collected, so the name keeps the row's value. *)
Lemma model_name_ignores_global_override :
  ~ (forall (o : Options) (vd : ViewData) (row : Row) (data : Data) (model : Model),
       onViewRow_data (mapRange := rangeInOrder) o vd row = Some data ->
       model ∈ Models data ->
       modelName model =
       Some (StringValue (dimensionName (ModelDimensionTags o) (Model_Dimensions model)))).
Proof.
  intros Hclaim.
  pose (model := rowModel overridingOptions sampleView (Tags sampleRow)).
  pose (data := default emptyData
                  (onViewRow_data (mapRange := rangeInOrder) overridingOptions sampleView sampleRow)).
  specialize (Hclaim overridingOptions sampleView sampleRow data model).
  assert (modelName model = Some (StringValue "s1/z1")) as Hname
    by (vm_compute; reflexivity).
  assert (dimensionName (ModelDimensionTags overridingOptions) (Model_Dimensions model)
          = "global/z1") as Hdims by (vm_compute; reflexivity).
  rewrite Hname, Hdims in Hclaim.
  assert (Some (StringValue "s1/z1") = Some (StringValue "global/z1")) as Heq.
  { apply Hclaim.
    - vm_compute. reflexivity.
    - assert (Models data = [model]) as -> by (vm_compute; reflexivity).
      apply list_elem_of_here. }
  discriminate Heq.
Qed.

Section DistributionFacts.
Context {mapRange : MapRange}.

Lemma fold_addMetric_Metrics vd md dims ts (name : string)
    (l : list (string * float64)) (data : Data) :
  Metrics
    (fold_left (fun data p => addMetric vd md dims ts data (name ++ "/" ++ fst p) (snd p))
       l data) =
  (Metrics data ++
   map (fun p => Metrics (addMetric vd md dims ts emptyData (name ++ "/" ++ fst p) (snd p)))
       l ≫= id)%list.
Proof.
  revert data. induction l as [|p l IH]; intros data; cbn.
  - by rewrite app_nil_r.
  - rewrite IH. cbn. by rewrite <- app_assoc.
Qed.

(** C3. A row with a distribution aggregation for which dimension
    resolution succeeded yields exactly five metric records, named after
    the view with the suffixes /count, /min, /max, /mean and /ss, valued
    with the count, minimum, maximum, mean and sum of squared deviations
    of the distribution (whatever these are), all with the timestamp and
    the dimensions of the row's model record; the order of the five is
    any. *)
Theorem distribution_row_five_metrics
    (o : Options) (vd : ViewData) (tags : list Tag)
    (Count : Z) (Min Max Mean SumOfSquaredDev : float64) :
  hasDimensionTag o tags ->
  exists data model fields,
    onViewRow_data o vd (mkRow tags (DistributionData Count Min Max Mean SumOfSquaredDev))
      = Some data /\
    Models data = [model] /\
    let metric suffix value :=
      mkMetric (Name (ViewOf vd) ++ suffix) (Model_Dimensions model) fields
        (Model_Timestamp model) value in
    Metrics data ≡ₚ
      [ metric "/count" (float64_of_int64 Count);
        metric "/min" Min;
        metric "/max" Max;
        metric "/mean" Mean;
        metric "/ss" SumOfSquaredDev ].
Proof.
  intros Hdim.
  exists (rowMetrics vd (rowMetadataFields o tags) (rowDimensions o tags) (rowTimestamp vd)
            (AddModel emptyData (rowModel o vd tags))
            (DistributionData Count Min Max Mean SumOfSquaredDev)),
         (rowModel o vd tags), (metricMetadataFields o vd tags).
  split; [by apply (onViewRow_data_Some o vd (mkRow tags _))|].
  split; [by rewrite rowMetrics_Models|].
  cbn zeta. unfold rowMetrics. rewrite fold_addMetric_Metrics. cbn [Metrics AddModel emptyData app].
  rewrite (range_order_perm (distributionParams Count Min Max Mean SumOfSquaredDev)).
  cbn. unfold addMetric, metricMetadataFields. cbn. by rewrite !copyMap_id.
Qed.

End DistributionFacts.

Lemma distribution_row_five_metrics_witness :
  hasDimensionTag sampleOptions (Tags sampleRow) /\
  exists data model fields,
    onViewRow_data (mapRange := rangeReversed) sampleOptions sampleView
      (mkRow (Tags sampleRow) (DistributionData 10 1%float 9%float 5%float 20%float))
      = Some data /\
    Models data = [model] /\
    let metric suffix value :=
      mkMetric (Name (ViewOf sampleView) ++ suffix) (Model_Dimensions model) fields
        (Model_Timestamp model) value in
    Metrics data ≡ₚ
      [ metric "/count" (float64_of_int64 10);
        metric "/min" 1%float;
        metric "/max" 9%float;
        metric "/mean" 5%float;
        metric "/ss" 20%float ].
Proof.
  assert (hasDimensionTag sampleOptions (Tags sampleRow)) as Hdim.
  { apply sampleRow_hasDimensionTag. cbn. apply list_elem_of_further, list_elem_of_here. }
  split; [exact Hdim|].
  exact (distribution_row_five_metrics (mapRange := rangeReversed)
           sampleOptions sampleView (Tags sampleRow)
           10 1%float 9%float 5%float 20%float Hdim).
Defined.

Example sampleRow_metric_values :
  map (fun m => (Metric_Metric m, Metric_Value m, Metric_Timestamp m))
    (Metrics sampleData)
  = [ ("example.size/count", 10%float, 1500000000123%Z);
      ("example.size/min", 1%float, 1500000000123%Z);
      ("example.size/max", 9%float, 1500000000123%Z);
      ("example.size/mean", 5%float, 1500000000123%Z);
      ("example.size/ss", 20%float, 1500000000123%Z) ].
Proof. vm_compute. reflexivity. Qed.

(** ** The export path *)

Section ExporterFacts.
Context {regexpLib : RegexpLib} {hashLib : HashLib} {bundlerLib : BundlerLib}
  {grpcLib : GrpcLib} {mapRange : MapRange}.

Lemma log_components (e : Exporter) level fields format :
  options (log e level fields format) = options e /\
  ignoredMetrics (log e level fields format) = ignoredMetrics e /\
  client (log e level fields format) = client e /\
  modelsBundler (log e level fields format) = modelsBundler e /\
  metricsBundler (log e level fields format) = metricsBundler e /\
  modelFreshnessChecker (log e level fields format) = modelFreshnessChecker e /\
  sent (log e level fields format) = sent e.
Proof. unfold log. destruct (OnLog (options e)), (LogLevelInfo <? level)%Z; done. Qed.

Lemma log_logged (e : Exporter) level fields format :
  exists calls,
    logged (log e level fields format) = (logged e ++ calls)%list /\
    (length calls <= 1)%nat /\
    Forall (fun call => log_level call = level /\ log_fields call = fields /\
                        log_format call = format) calls.
Proof.
  unfold log. destruct (OnLog (options e)); [|destruct (LogLevelInfo <? level)%Z].
  - eexists [_]. cbn. repeat split; [lia | by repeat constructor].
  - eexists [_]. cbn. repeat split; [lia | by repeat constructor].
  - exists []. rewrite app_nil_r. repeat split; [cbn; lia | constructor].
Qed.

(** Error-level calls reach a logger whether or not a custom log function
    is installed. *)
Lemma log_error_logged (e : Exporter) fields format :
  logged (log e LogLevelError fields format) =
  (logged e ++
   [mkLogCall (if OnLog (options e) then CustomLog else StandardLog)
      LogLevelError fields format])%list.
Proof. unfold log. by destruct (OnLog (options e)). Qed.

(** C2. A row none of whose tag keys is a configured dimension tag name
    builds no model and no metric record: processing it returns normally,
    leaves both bundlers, the freshness cache and the outbound calls as
    they were, and only calls the log function, once, at debug level. *)
Theorem row_without_dimension_tag_is_skipped
    (now : Z) (e : Exporter) (vd : ViewData) (row : Row) :
  (forall tag, tag ∈ Tags row -> Key tag ∉ ModelDimensionTags (options e)) ->
  onViewRow_data (options e) vd row = None /\
  exists e',
    onViewRow now e vd row = Done e' /\
    e' = log e LogLevelDebug (ignoredRowFields vd row)
           "ignoring row with no model dimension tags" /\
    modelsBundler e' = modelsBundler e /\
    metricsBundler e' = metricsBundler e /\
    modelFreshnessChecker e' = modelFreshnessChecker e /\
    sent e' = sent e /\
    exists calls,
      logged e' = (logged e ++ calls)%list /\
      (length calls <= 1)%nat /\
      Forall (fun call => log_level call = LogLevelDebug) calls.
Proof.
  intros Hnone.
  assert (onViewRow_data (options e) vd row = None) as Hdata.
  { apply onViewRow_data_None. intros (tag & Hin & Hk). by apply (Hnone tag). }
  split; [done|]. unfold onViewRow. rewrite Hdata.
  exists (log e LogLevelDebug (ignoredRowFields vd row)
            "ignoring row with no model dimension tags").
  split; [reflexivity|]. split; [reflexivity|].
  destruct (log_components e LogLevelDebug (ignoredRowFields vd row)
              "ignoring row with no model dimension tags")
    as (_ & _ & _ & -> & -> & -> & ->).
  repeat split.
  destruct (log_logged e LogLevelDebug (ignoredRowFields vd row)
              "ignoring row with no model dimension tags")
    as (calls & Hcalls & Hlen & Hall).
  exists calls. repeat split; try done.
  eapply Forall_impl; [exact Hall|]. by intros call (? & _).
Qed.

End ExporterFacts.

Lemma row_without_dimension_tag_is_skipped_witness :
  (forall tag, tag ∈ Tags untaggedRow ->
               Key tag ∉ ModelDimensionTags (options sampleExporter)) /\
  onViewRow 0 sampleExporter sampleView untaggedRow =
  Done (log sampleExporter LogLevelDebug (ignoredRowFields sampleView untaggedRow)
          "ignoring row with no model dimension tags").
Proof.
  assert (forall tag, tag ∈ Tags untaggedRow ->
                      Key tag ∉ ModelDimensionTags (options sampleExporter)) as Hnone.
  { intros tag Hin. apply list_elem_of_singleton in Hin as ->. cbn.
    intros Hk. apply elem_of_cons in Hk as [Hk|Hk]; [discriminate Hk|].
    apply list_elem_of_singleton in Hk. discriminate Hk. }
  split; [exact Hnone|].
  destruct (row_without_dimension_tag_is_skipped 0 sampleExporter sampleView untaggedRow
              Hnone) as (_ & e' & -> & -> & _).
  reflexivity.
Defined.

(** ** The freshness filter *)

Lemma wrap64_small (z : Z) : (- 2 ^ 63 <= z < 2 ^ 63)%Z -> wrap64 z = z.
Proof. intros Hz. unfold wrap64. rewrite Z.mod_small; lia. Qed.

Lemma map_fold_delete_lookup {A} (p : A -> bool) (acc m : gmap Z A) (k : Z) :
  map_fold (fun k v r => if p v then delete k r else r) acc m !! k =
  match m !! k with
  | Some v => if p v then None else acc !! k
  | None => acc !! k
  end.
Proof.
  revert k.
  apply (map_fold_weak_ind
           (fun r m => forall k, r !! k =
              match m !! k with
              | Some v => if p v then None else acc !! k
              | None => acc !! k
              end)).
  - intros k. by rewrite lookup_empty.
  - intros i x m' r Hi IH k. destruct (decide (i = k)) as [->|Hne].
    + rewrite lookup_insert_eq. destruct (p x).
      * apply lookup_delete_eq.
      * by rewrite IH, Hi.
    + rewrite lookup_insert_ne by done. destruct (p x).
      * rewrite lookup_delete_ne by done. apply IH.
      * apply IH.
Qed.

Lemma evict_lookup (f : freshnessChecker) (now k : Z) :
  fc_m (evict f now) !! k =
  match fc_m f !! k with
  | Some v => if (fc_seconds f <? int64_sub now (exp_t v))%Z then None else Some v
  | None => None
  end.
Proof.
  unfold evict. cbn.
  rewrite (map_fold_delete_lookup
             (fun v => (fc_seconds f <? int64_sub now (exp_t v))%Z)).
  destruct (fc_m f !! k) as [v|] eqn:Hk; [|done].
  by destruct (fc_seconds f <? int64_sub now (exp_t v))%Z.
Qed.

(** For times that fit in [int64] the eviction test is [now - t > seconds]. *)
Lemma evict_lookup_in_range (f : freshnessChecker) (now k : Z) (old : expiringUint64) :
  fc_m f !! k = Some old ->
  (0 <= exp_t old < 2 ^ 63)%Z -> (0 <= now < 2 ^ 63)%Z ->
  fc_m (evict f now) !! k =
  if (fc_seconds f <? now - exp_t old)%Z then None else Some old.
Proof.
  intros Hk Hold Hnow. rewrite evict_lookup, Hk.
  unfold int64_sub. by rewrite wrap64_small by lia.
Qed.

Lemma evict_seconds (f : freshnessChecker) (ticks : list Z) :
  fc_seconds (foldl evict f ticks) = fc_seconds f.
Proof. revert f. induction ticks as [|t ticks IH]; intros f; cbn; [done|]. by rewrite IH. Qed.

(** Eviction only deletes. *)
Lemma evict_ticks_lookup (f : freshnessChecker) (ticks : list Z) (k : Z) :
  fc_m (foldl evict f ticks) !! k = None \/
  fc_m (foldl evict f ticks) !! k = fc_m f !! k.
Proof.
  revert f. induction ticks as [|t ticks IH]; intros f; cbn; [by right|].
  destruct (IH (evict f t)) as [->| ->]; [by left|].
  rewrite evict_lookup. destruct (fc_m f !! k) as [v|]; [|by left].
  destruct (fc_seconds f <? int64_sub t (exp_t v))%Z; [by left | by right].
Qed.

(** An entry survives the ticks that find it no older than the TTL. *)
Lemma evict_ticks_keep (f : freshnessChecker) (ticks : list Z) (k : Z)
    (old : expiringUint64) :
  fc_m f !! k = Some old ->
  (forall tick, tick ∈ ticks -> (int64_sub tick (exp_t old) <= fc_seconds f)%Z) ->
  fc_m (foldl evict f ticks) !! k = Some old.
Proof.
  revert f. induction ticks as [|t ticks IH]; intros f Hk Hticks; cbn; [done|].
  apply IH.
  - rewrite evict_lookup, Hk.
    assert (int64_sub t (exp_t old) <= fc_seconds f)%Z as Hle by (apply Hticks; left).
    by rewrite (proj2 (Z.ltb_ge _ _) Hle).
  - intros tick Hin. cbn. apply Hticks. by right.
Qed.

Section FreshnessFacts.
Context {hashLib : HashLib}.

Lemma isFresh_hashed (f : freshnessChecker) (model : Model) (now keyHash valueHash : Z) :
  hashDimensions (Model_Dimensions model) = Ok keyHash ->
  hashMetadataFields (Model_MetadataFields model) = Ok valueHash ->
  isFresh f model now =
  if match fc_m f !! keyHash with
     | Some old => (valueHash =? exp_v old)%Z
     | None => false
     end
  then (true, f)
  else (false,
        mkFreshnessChecker (<[keyHash := mkExpiring valueHash now]> (fc_m f))
          (fc_seconds f)).
Proof. intros Hk Hv. unfold isFresh. by rewrite Hk, Hv. Qed.

(** After a submission the cache holds the submitted metadata hash. *)
Lemma isFresh_entry (f : freshnessChecker) (model : Model) (now keyHash valueHash : Z) :
  hashDimensions (Model_Dimensions model) = Ok keyHash ->
  hashMetadataFields (Model_MetadataFields model) = Ok valueHash ->
  exists old,
    fc_m (snd (isFresh f model now)) !! keyHash = Some old /\ exp_v old = valueHash /\
    fc_seconds (snd (isFresh f model now)) = fc_seconds f.
Proof.
  intros Hk Hv. rewrite (isFresh_hashed f model now keyHash valueHash Hk Hv).
  destruct (fc_m f !! keyHash) as [old|] eqn:Hold.
  - destruct (Z.eqb_spec valueHash (exp_v old)) as [Heq|Hne]; cbn.
    + by exists old.
    + eexists. by rewrite lookup_insert_eq.
  - cbn. eexists. by rewrite lookup_insert_eq.
Qed.

Lemma isFresh_true_iff (f : freshnessChecker) (model : Model) (now keyHash valueHash : Z) :
  hashDimensions (Model_Dimensions model) = Ok keyHash ->
  hashMetadataFields (Model_MetadataFields model) = Ok valueHash ->
  fst (isFresh f model now) = true <->
  exists old, fc_m f !! keyHash = Some old /\ exp_v old = valueHash.
Proof.
  intros Hk Hv. rewrite (isFresh_hashed f model now keyHash valueHash Hk Hv).
  destruct (fc_m f !! keyHash) as [old|] eqn:Hold.
  - destruct (Z.eqb_spec valueHash (exp_v old)) as [Heq|Hne]; cbn.
    + split; [|done]. intros _. by exists old.
    + split; [done|]. intros (old' & [= <-] & Hv'). congruence.
  - cbn. split; [done|]. by intros (old' & [=] & _).
Qed.

Lemma isFresh_false_iff (f : freshnessChecker) (model : Model) (now keyHash valueHash : Z) :
  hashDimensions (Model_Dimensions model) = Ok keyHash ->
  hashMetadataFields (Model_MetadataFields model) = Ok valueHash ->
  fst (isFresh f model now) = false <->
  fc_m f !! keyHash = None \/
  exists old, fc_m f !! keyHash = Some old /\ exp_v old <> valueHash.
Proof.
  intros Hk Hv. rewrite (isFresh_hashed f model now keyHash valueHash Hk Hv).
  destruct (fc_m f !! keyHash) as [old|] eqn:Hold.
  - destruct (Z.eqb_spec valueHash (exp_v old)) as [Heq|Hne]; cbn.
    + split; [done|]. intros [[=]|(old' & [= <-] & Hv')]. congruence.
    + split; [|done]. intros _. right. exists old. split; [done | congruence].
  - cbn. split; [by left | done].
Qed.

(** A failed hash is reported as not fresh, and the cache is left alone. *)
Lemma isFresh_hash_error (f : freshnessChecker) (model : Model) (now : Z) :
  (exists err, hashDimensions (Model_Dimensions model) = Err err) \/
  (exists err, hashMetadataFields (Model_MetadataFields model) = Err err) ->
  isFresh f model now = (false, f).
Proof.
  unfold isFresh. intros [(err & ->)|(err & ->)]; [done|].
  by destruct (hashDimensions (Model_Dimensions model)).
Qed.

End FreshnessFacts.

Section FreshnessSpec.
Context {hashLib : HashLib}.

(** C4. With [keyHash] the hash of the model's dimensions and
    [valueHash] the hash of its metadata fields, [isFresh] answers true
    exactly when the cache holds an entry under [keyHash] whose stored
    value is [valueHash], and then leaves the cache as it is; otherwise it
    stores [valueHash] with the current time under [keyHash] and answers
    false.  Hence a second submission of the same dimensions and metadata
    is suppressed as long as the eviction ticks find the entry no older
    than the TTL; a submission whose metadata hash differs is not
    suppressed; and once a tick has found the entry older than the TTL an
    unchanged resubmission is not suppressed either. *)
Theorem isFresh_suppresses_unchanged_models
    (f : freshnessChecker) (model : Model) (now keyHash valueHash : Z) :
  hashDimensions (Model_Dimensions model) = Ok keyHash ->
  hashMetadataFields (Model_MetadataFields model) = Ok valueHash ->
  let fresh := fst (isFresh f model now) in
  let f1 := snd (isFresh f model now) in
  (fresh = true <->
   exists old, fc_m f !! keyHash = Some old /\ exp_v old = valueHash) /\
  (fresh = true -> f1 = f) /\
  (fresh = false ->
   f1 = mkFreshnessChecker (<[keyHash := mkExpiring valueHash now]> (fc_m f))
          (fc_seconds f)) /\
  (forall (model' : Model) (now' : Z) (ticks : list Z),
     Model_Dimensions model' = Model_Dimensions model ->
     Model_MetadataFields model' = Model_MetadataFields model ->
     (forall old tick,
        fc_m f1 !! keyHash = Some old -> tick ∈ ticks ->
        (int64_sub tick (exp_t old) <= fc_seconds f)%Z) ->
     isFresh (foldl evict f1 ticks) model' now' = (true, foldl evict f1 ticks)) /\
  (forall (model' : Model) (now' : Z) (ticks : list Z) (valueHash' : Z),
     Model_Dimensions model' = Model_Dimensions model ->
     hashMetadataFields (Model_MetadataFields model') = Ok valueHash' ->
     valueHash' <> valueHash ->
     fst (isFresh (foldl evict f1 ticks) model' now') = false) /\
  (forall (model' : Model) (now' : Z) (ticks : list Z) (expiry : Z),
     Model_Dimensions model' = Model_Dimensions model ->
     Model_MetadataFields model' = Model_MetadataFields model ->
     (forall old,
        fc_m f1 !! keyHash = Some old ->
        (fc_seconds f < int64_sub expiry (exp_t old))%Z) ->
     fst (isFresh (evict (foldl evict f1 ticks) expiry) model' now') = false).
Proof.
  intros Hk Hv fresh f1.
  destruct (isFresh_entry f model now keyHash valueHash Hk Hv)
    as (old & Hold & Hvalue & Hseconds).
  fold f1 in Hold, Hseconds.
  split; [by apply isFresh_true_iff|].
  split.
  { subst fresh f1. rewrite (isFresh_hashed f model now keyHash valueHash Hk Hv).
    by case_match. }
  split.
  { subst fresh f1. rewrite (isFresh_hashed f model now keyHash valueHash Hk Hv).
    by case_match. }
  split; [|split].
  - intros model' now' ticks Hdims Hfields Hticks.
    rewrite (isFresh_hashed _ model' now' keyHash valueHash)
      by (by rewrite ?Hdims, ?Hfields).
    rewrite (evict_ticks_keep f1 ticks keyHash old Hold).
    + by rewrite Hvalue, Z.eqb_refl.
    + intros tick Hin. rewrite Hseconds. by apply Hticks.
  - intros model' now' ticks valueHash' Hdims Hfields Hne.
    apply (isFresh_false_iff _ model' now' keyHash valueHash');
      [by rewrite Hdims | done |].
    destruct (evict_ticks_lookup f1 ticks keyHash) as [Hgone|Hkept]; [by left|].
    right. exists old. split; [by rewrite Hkept | congruence].
  - intros model' now' ticks expiry Hdims Hfields Hexpired.
    apply (isFresh_false_iff _ model' now' keyHash valueHash);
      [by rewrite Hdims | by rewrite Hfields |].
    left. rewrite evict_lookup.
    destruct (evict_ticks_lookup f1 ticks keyHash) as [->| ->]; [done|].
    rewrite Hold, evict_seconds, Hseconds.
    by rewrite (proj2 (Z.ltb_lt _ _) (Hexpired old Hold)).
Qed.

End FreshnessSpec.

Lemma isFresh_suppresses_unchanged_models_witness :
  let f := newFreshnessChecker 3600 in
  let keyHash := Fnv.hashMap (Model_Dimensions sampleModel) in
  let valueHash := Fnv.hashFields (Model_MetadataFields sampleModel) in
  let f1 := snd (isFresh (hashLib := fnvHash) f sampleModel 1000) in
  (hashDimensions (Model_Dimensions sampleModel) = Ok keyHash /\
   hashMetadataFields (Model_MetadataFields sampleModel) = Ok valueHash) /\
  fst (isFresh (hashLib := fnvHash) f sampleModel 1000) = false /\
  fst (isFresh (hashLib := fnvHash) (foldl evict f1 [1001; 4600]%Z) sampleModel 4600) = true /\
  fst (isFresh (hashLib := fnvHash) (evict (foldl evict f1 [1001; 4600]%Z) 4601) sampleModel 4601)
  = false.
Proof.
  intros f keyHash valueHash f1.
  pose proof (isFresh_suppresses_unchanged_models (hashLib := fnvHash)
                f sampleModel 1000 keyHash valueHash eq_refl eq_refl) as Hspec.
  cbv zeta in Hspec. fold f1 in Hspec.
  destruct Hspec as (Hiff & _ & Hstored & Hagain & _ & Hexpired).
  assert (fst (isFresh (hashLib := fnvHash) f sampleModel 1000) = false) as Hfirst.
  { apply not_true_is_false. intros Hfresh.
    apply Hiff in Hfresh as (old & Hold & _).
    cbn in Hold. rewrite lookup_empty in Hold. discriminate Hold. }
  assert (forall old, fc_m f1 !! keyHash = Some old -> exp_t old = 1000%Z) as Hseen.
  { intros old Hold. rewrite (Hstored Hfirst) in Hold. cbn in Hold.
    rewrite lookup_insert_eq in Hold. by injection Hold as <-. }
  split; [by split|]. split; [exact Hfirst|]. split.
  - rewrite (Hagain sampleModel 4600%Z [1001; 4600]%Z eq_refl eq_refl); [reflexivity|].
    intros old tick Hold Hin. rewrite (Hseen old Hold).
    apply elem_of_cons in Hin as [->|Hin]; [vm_compute; discriminate|].
    apply list_elem_of_singleton in Hin as ->. vm_compute; discriminate.
  - apply (Hexpired sampleModel 4601%Z [1001; 4600]%Z 4601%Z eq_refl eq_refl).
    intros old Hold. rewrite (Hseen old Hold). vm_compute. reflexivity.
Defined.

(** ** Bundling and delivery *)

Section DeliveryFacts.
Context {regexpLib : RegexpLib} {hashLib : HashLib} {bundlerLib : BundlerLib}
  {grpcLib : GrpcLib} {mapRange : MapRange}.

Lemma bundleMetric_options (e : Exporter) (metric : Metric) :
  options (bundleMetric e metric) = options e.
Proof.
  unfold bundleMetric. destruct (bundler_Add (metricsBundler e) metric 1) as [b [err|]];
    [|done].
  by destruct (log_components (withMetricsBundler e b) LogLevelError
                 {[ "error" := FError (Some err) ]} (sendFailure "metrics" err))
    as (-> & _).
Qed.

Lemma bundleModel_options (now : Z) (e : Exporter) (model : Model) :
  options (bundleModel now e model) = options e.
Proof.
  unfold bundleModel. destruct (isFresh (modelFreshnessChecker e) model now) as [[] f];
    [done|].
  cbn. destruct (bundler_Add (modelsBundler e) model 1) as [b [err|]]; [|done].
  by destruct (log_components (withModelsBundler (withFreshnessChecker e f) b)
                 LogLevelError {[ "error" := FError (Some err) ]}
                 (sendFailure "models" err)) as (-> & _).
Qed.

Lemma bundleMetrics_options (e : Exporter) (metrics : list Metric) :
  options (bundleMetrics e metrics) = options e.
Proof.
  revert e. induction metrics as [|m metrics IH]; intros e; cbn; [done|].
  unfold bundleMetrics in IH. by rewrite IH, bundleMetric_options.
Qed.

Lemma bundleModels_options (now : Z) (e : Exporter) (models : list Model) :
  options (bundleModels now e models) = options e.
Proof.
  revert e. induction models as [|m models IH]; intros e; cbn; [done|].
  unfold bundleModels in IH. by rewrite IH, bundleModel_options.
Qed.

Lemma bundleMetrics_app (e : Exporter) (before after : list Metric) :
  bundleMetrics e (before ++ after) = bundleMetrics (bundleMetrics e before) after.
Proof. apply fold_left_app. Qed.

Lemma bundleModels_app (now : Z) (e : Exporter) (before after : list Model) :
  bundleModels now e (before ++ after) =
  bundleModels now (bundleModels now e before) after.
Proof. apply fold_left_app. Qed.

(** C7. Whatever batch [bundleData] is given, it returns normally; when
    adding one record of the batch to its bundler fails, with the overflow
    error or any other, that failure is logged at error level, the
    exporter is otherwise left with what the bundler made of the refused
    record, and every remaining record of the batch is still processed. *)
Theorem bundleData_continues_after_failed_add
    (now : Z) (e : Exporter) (input : option Data) (data : Data) :
  match OnData (options e) with
  | Some onData => onData input
  | None => input
  end = Some data ->
  exists e',
    bundleData now e input = Done e' /\
    (forall before model after f b err,
       Models data = (before ++ model :: after)%list ->
       let e1 := bundleModels now e before in
       isFresh (modelFreshnessChecker e1) model now = (false, f) ->
       bundler_Add (modelsBundler e1) model 1 = (b, Some err) ->
       bundleModel now e1 model =
         log (withModelsBundler (withFreshnessChecker e1 f) b) LogLevelError
           {[ "error" := FError (Some err) ]} (sendFailure "models" err) /\
       logged (bundleModel now e1 model) =
         (logged e1 ++
          [mkLogCall (if OnLog (options e) then CustomLog else StandardLog)
             LogLevelError {[ "error" := FError (Some err) ]}
             (sendFailure "models" err)])%list /\
       e' = bundleMetrics (bundleModels now (bundleModel now e1 model) after)
              (Metrics data)) /\
    (forall before metric after b err,
       Metrics data = (before ++ metric :: after)%list ->
       let e1 := bundleMetrics (bundleModels now e (Models data)) before in
       bundler_Add (metricsBundler e1) metric 1 = (b, Some err) ->
       bundleMetric e1 metric =
         log (withMetricsBundler e1 b) LogLevelError
           {[ "error" := FError (Some err) ]} (sendFailure "metrics" err) /\
       logged (bundleMetric e1 metric) =
         (logged e1 ++
          [mkLogCall (if OnLog (options e) then CustomLog else StandardLog)
             LogLevelError {[ "error" := FError (Some err) ]}
             (sendFailure "metrics" err)])%list /\
       e' = bundleMetrics (bundleMetric e1 metric) after).
Proof.
  intros Hdata. unfold bundleData. rewrite Hdata.
  exists (bundleMetrics (bundleModels now e (Models data)) (Metrics data)).
  split; [reflexivity|]. split.
  - intros before model after f b err Hmodels Hfresh Hadd.
    assert (bundleModel now (bundleModels now e before) model =
            log (withModelsBundler
                   (withFreshnessChecker (bundleModels now e before) f) b)
              LogLevelError {[ "error" := FError (Some err) ]}
              (sendFailure "models" err)) as Hstep.
    { unfold bundleModel. rewrite Hfresh. cbn. by rewrite Hadd. }
    split; [exact Hstep|]. split.
    + rewrite Hstep, log_error_logged. cbn. by rewrite bundleModels_options.
    + rewrite Hmodels, bundleModels_app. reflexivity.
  - intros before metric after b err Hmetrics Hadd.
    assert (bundleMetric (bundleMetrics (bundleModels now e (Models data)) before) metric =
            log (withMetricsBundler
                   (bundleMetrics (bundleModels now e (Models data)) before) b)
              LogLevelError {[ "error" := FError (Some err) ]}
              (sendFailure "metrics" err)) as Hstep.
    { unfold bundleMetric. by rewrite Hadd. }
    split; [exact Hstep|]. split.
    + rewrite Hstep, log_error_logged. cbn.
      by rewrite bundleMetrics_options, bundleModels_options.
    + rewrite Hmetrics, bundleMetrics_app. reflexivity.
Qed.

(** C8. Sending a batch of models, or of metrics, makes exactly one
    outbound call with the whole batch, puts nothing back into a bundler,
    and ends in exactly one of three log calls: at error level with the
    record count when the call returned an error; at warning level with
    the record count and the failed count when the call succeeded and the
    failed count is positive; at debug level with the record count
    otherwise. *)
Theorem put_has_three_terminal_outcomes
    (e : Exporter) (models : list Model) (metrics : list Metric) :
  (let response :=
     client_PutModels (client e) (1 * minute) (APIKeyHeader, APIKey (options e))
       true models in
   let status := fst response in
   let err := snd response in
   let count := FInt (Z.of_nat (length models)) in
   let called := withSent e (sent e ++ [SentModels models]) in
   sent (putModels e models) = (sent e ++ [SentModels models])%list /\
   modelsBundler (putModels e models) = modelsBundler e /\
   metricsBundler (putModels e models) = metricsBundler e /\
   ((err <> None /\
     putModels e models =
       log called LogLevelError {[ "error" := FError err; "models" := count ]}
         "unable to send models") \/
    (err = None /\ (0 < GetFailed status)%Z /\
     putModels e models =
       log called LogLevelWarning
         {[ "error" := FError err; "models" := count;
            "failed" := FInt (GetFailed status) ]}
         "failed to send models") \/
    (err = None /\ (GetFailed status <= 0)%Z /\
     putModels e models =
       log called LogLevelDebug {[ "models" := count ]} "sent models"))) /\
  (let response :=
     client_PutMetrics (client e) (1 * minute) (APIKeyHeader, APIKey (options e))
       true metrics in
   let status := fst response in
   let err := snd response in
   let count := FInt (Z.of_nat (length metrics)) in
   let called := withSent e (sent e ++ [SentMetrics metrics]) in
   sent (putMetrics e metrics) = (sent e ++ [SentMetrics metrics])%list /\
   modelsBundler (putMetrics e metrics) = modelsBundler e /\
   metricsBundler (putMetrics e metrics) = metricsBundler e /\
   ((err <> None /\
     putMetrics e metrics =
       log called LogLevelError {[ "error" := FError err; "metrics" := count ]}
         "unable to send metrics") \/
    (err = None /\ (0 < GetFailed status)%Z /\
     putMetrics e metrics =
       log called LogLevelWarning
         {[ "error" := FError err; "metrics" := count;
            "failed" := FInt (GetFailed status) ]}
         "failed to send metrics") \/
    (err = None /\ (GetFailed status <= 0)%Z /\
     putMetrics e metrics =
       log called LogLevelDebug {[ "metrics" := count ]} "sent metrics"))).
Proof.
  split.
  - cbv zeta. unfold putModels.
    destruct (client_PutModels (client e) (1 * minute)
                (APIKeyHeader, APIKey (options e)) true models) as [status err].
    cbn [fst snd].
    destruct err as [err|]; [|destruct (Z.ltb_spec 0 (GetFailed status))].
    all: match goal with
         | |- context [log ?e' ?lvl ?fields ?msg] =>
           destruct (log_components e' lvl fields msg)
             as (_ & _ & _ & -> & -> & _ & ->)
         end.
    all: repeat split; eauto 10.
  - cbv zeta. unfold putMetrics.
    destruct (client_PutMetrics (client e) (1 * minute)
                (APIKeyHeader, APIKey (options e)) true metrics) as [status err].
    cbn [fst snd].
    destruct err as [err|]; [|destruct (Z.ltb_spec 0 (GetFailed status))].
    all: match goal with
         | |- context [log ?e' ?lvl ?fields ?msg] =>
           destruct (log_components e' lvl fields msg)
             as (_ & _ & _ & -> & -> & _ & ->)
         end.
    all: repeat split; eauto 10.
Qed.

End DeliveryFacts.

Lemma bundleData_continues_after_failed_add_witness :
  (match OnData (options sampleExporter) with
   | Some onData => onData (Some sampleData)
   | None => Some sampleData
   end = Some sampleData /\
   Metrics sampleData
   = (take 2 (Metrics sampleData) ++ thirdMetric :: drop 3 (Metrics sampleData))%list /\
   bundler_Add (metricsBundler twoMetricsIn) thirdMetric 1
   = (metricsBundler twoMetricsIn, Some ErrOverflow)) /\
  bundleMetric twoMetricsIn thirdMetric =
    log twoMetricsIn LogLevelError {[ "error" := FError (Some ErrOverflow) ]}
      "failed to send metrics: buffer full" /\
  bundleData 0 sampleExporter (Some sampleData) =
    Done (bundleMetrics (bundleMetric twoMetricsIn thirdMetric)
            (drop 3 (Metrics sampleData))).
Proof.
  assert (Metrics sampleData
          = (take 2 (Metrics sampleData) ++ thirdMetric :: drop 3 (Metrics sampleData))%list)
    as Hsplit by (vm_compute; reflexivity).
  assert (bundler_Add (metricsBundler twoMetricsIn) thirdMetric 1
          = (metricsBundler twoMetricsIn, Some ErrOverflow)) as Hadd
    by (vm_compute; reflexivity).
  split; [by repeat split|].
  destruct (bundleData_continues_after_failed_add 0 sampleExporter
              (Some sampleData) sampleData eq_refl) as (e' & -> & _ & Hmetrics).
  destruct (Hmetrics (take 2 (Metrics sampleData)) thirdMetric
              (drop 3 (Metrics sampleData)) (metricsBundler twoMetricsIn) ErrOverflow
              Hsplit Hadd) as (Hstep & _ & ->).
  split; [exact Hstep | reflexivity].
Defined.

(** Of the five metrics of [sampleData] two fit; the other three are
    refused one by one, each with its own error-level log call. *)
Example bundleData_sample_overflow :
  buffered (bundleData 0 sampleExporter (Some sampleData)) = Some (1%nat, 2%nat) /\
  match bundleData 0 sampleExporter (Some sampleData) with
  | Done e => map log_level (logged e)
  | Panic => []
  end = [LogLevelError; LogLevelError; LogLevelError].
Proof. split; vm_compute; reflexivity. Qed.

Lemma put_has_three_terminal_outcomes_witness :
  putModels bareExporter [sampleModel] =
    log (withSent bareExporter [SentModels [sampleModel]]) LogLevelError
      {[ "error" := FError (Some (ErrOther "unauthenticated")); "models" := FInt 1 ]}
      "unable to send models" /\
  putModels sampleExporter [anonymousModel] =
    log (withSent sampleExporter [SentModels [anonymousModel]]) LogLevelWarning
      {[ "error" := FError None; "models" := FInt 1; "failed" := FInt 1 ]}
      "failed to send models" /\
  putMetrics sampleExporter (Metrics sampleData) =
    log (withSent sampleExporter [SentMetrics (Metrics sampleData)]) LogLevelDebug
      {[ "metrics" := FInt 5 ]} "sent metrics".
Proof.
  split; [|split].
  - destruct (put_has_three_terminal_outcomes bareExporter [sampleModel] [])
      as ((_ & _ & _ & [(_ & Hput)|[(Herr & _)|(Herr & _)]]) & _).
    + exact Hput.
    + discriminate Herr.
    + discriminate Herr.
  - destruct (put_has_three_terminal_outcomes sampleExporter [anonymousModel] [])
      as ((_ & _ & _ & [(Herr & _)|[(_ & _ & Hput)|(_ & Hfailed & _)]]) & _).
    + exfalso. apply Herr. reflexivity.
    + exact Hput.
    + exfalso. vm_compute in Hfailed. apply Hfailed. reflexivity.
  - destruct (put_has_three_terminal_outcomes sampleExporter [] (Metrics sampleData))
      as (_ & (_ & _ & _ & [(Herr & _)|[(_ & Hfailed & _)|(_ & _ & Hput)]])).
    + exfalso. apply Herr. reflexivity.
    + exfalso. vm_compute in Hfailed. discriminate Hfailed.
    + exact Hput.
Defined.

(** ** Ignore patterns and construction *)

Section ConstructionFacts.
Context {regexpLib : RegexpLib} {hashLib : HashLib} {bundlerLib : BundlerLib}
  {grpcLib : GrpcLib} {mapRange : MapRange}.

Lemma isIgnored_true (ignored : list Regexp) (name : string) :
  isIgnored ignored name = true <->
  exists re, re ∈ ignored /\ FindString re name <> "".
Proof.
  unfold isIgnored. rewrite existsb_exists. split.
  - intros (re & Hin & Hfind). exists re. split; [by apply list_elem_of_In|].
    intros Heq. rewrite Heq in Hfind. discriminate Hfind.
  - intros (re & Hin & Hfind). exists re. split; [by apply list_elem_of_In|].
    by destruct (String.eqb_spec (FindString re name) "").
Qed.

(** A view whose name has a non-empty match of some ignore pattern is
    dropped before any hook or row is looked at. *)
Lemma ExportView_ignores_nonempty_match (now : Z) (e : Exporter) (vd : ViewData) :
  (exists re, re ∈ ignoredMetrics e /\ FindString re (Name (ViewOf vd)) <> "") ->
  exists e',
    ExportView now e vd = Done e' /\
    modelsBundler e' = modelsBundler e /\
    metricsBundler e' = metricsBundler e /\
    modelFreshnessChecker e' = modelFreshnessChecker e /\
    sent e' = sent e.
Proof.
  intros Hmatch%isIgnored_true. unfold ExportView.
  set (fields := {[ "viewName" := FString (Name (ViewOf vd)) ]} : gmap string FieldValue).
  destruct (log_components e LogLevelDebug fields "exporting view")
    as (_ & Hignored & _ & Hmodels & Hmetrics & Hfresh & Hsent).
  rewrite Hignored, Hmatch.
  eexists. split; [reflexivity|].
  destruct (log_components (log e LogLevelDebug fields "exporting view")
              LogLevelDebug fields "ignoring metric")
    as (_ & _ & _ & -> & -> & -> & ->).
  done.
Qed.

Lemma compileIgnored_Err (names : list string) (acc : list Regexp) :
  (exists s, s ∈ names /\ exists err, regexp_Compile s = Err err) ->
  exists err, compileIgnored names acc = Err err.
Proof.
  revert acc. induction names as [|s names IH]; intros acc (bad & Hin & err & Hbad).
  - by apply not_elem_of_nil in Hin.
  - cbn. destruct (regexp_Compile s) as [re|err'] eqn:Hs; [|by exists err'].
    apply IH. exists bad. split; [|by exists err].
    apply elem_of_cons in Hin as [->|Hin]; [congruence | done].
Qed.

Lemma compileIgnored_Ok (names : list string) (acc : list Regexp) :
  (forall s, s ∈ names -> exists re, regexp_Compile s = Ok re) ->
  exists ignored, compileIgnored names acc = Ok ignored.
Proof.
  revert acc. induction names as [|s names IH]; intros acc Hall; cbn.
  - by exists acc.
  - destruct (Hall s) as (re & ->); [left|].
    apply IH. intros s' Hin. apply Hall. by right.
Qed.

Lemma bundleData_Done (now : Z) (e : Exporter) (data : Data) :
  OnData (options e) = None ->
  exists e', bundleData now e (Some data) = Done e' /\ options e' = options e.
Proof.
  intros Hhook. unfold bundleData. rewrite Hhook. eexists. split; [reflexivity|].
  by rewrite bundleMetrics_options, bundleModels_options.
Qed.

Lemma onViewRow_Done (now : Z) (e : Exporter) (vd : ViewData) (row : Row) :
  OnData (options e) = None ->
  exists e', onViewRow now e vd row = Done e' /\ options e' = options e.
Proof.
  intros Hhook. unfold onViewRow.
  destruct (onViewRow_data (options e) vd row) as [data|].
  - by apply bundleData_Done.
  - eexists. split; [reflexivity|].
    by match goal with
       | |- context [log ?e' ?lvl ?fields ?msg] =>
         destruct (log_components e' lvl fields msg) as (-> & _)
       end.
Qed.

Lemma onViewRows_Done (now : Z) (vd : ViewData) (rows : list Row) (e : Exporter) :
  OnViewRow (options e) = None -> OnData (options e) = None ->
  exists e', onViewRows now vd e rows = Done e' /\ options e' = options e.
Proof.
  revert e. induction rows as [|row rows IH]; intros e Hrow Hdata; cbn.
  - by exists e.
  - unfold onViewDataRow. rewrite Hrow.
    destruct (onViewRow_Done now e vd row Hdata) as (e1 & -> & Hopts). cbn.
    destruct (IH e1) as (e' & -> & Hopts'); [by rewrite Hopts..|].
    exists e'. by rewrite Hopts', Hopts.
Qed.

Lemma NewExporter_Ok (o : Options) (conn : ClientConn) :
  (forall s, s ∈ IgnoredMetricNames o -> exists re, regexp_Compile s = Ok re) ->
  grpc_Dial (dialAddress o) = Ok conn ->
  exists e,
    NewExporter o = Ok e /\
    client e = conn /\
    Address (options e) = dialAddress o /\
    APIKey (options e) = APIKey o.
Proof.
  intros Hgood Hdial. unfold NewExporter. cbv zeta.
  assert (IgnoredMetricNames
            (if String.eqb (Address o) "" then withAddress o DefaultAddress else o)
          = IgnoredMetricNames o) as -> by by destruct (String.eqb (Address o) "").
  assert (Address (if String.eqb (Address o) "" then withAddress o DefaultAddress else o)
          = dialAddress o) as Haddress
    by (unfold dialAddress; by destruct (String.eqb (Address o) "")).
  assert (APIKey (if String.eqb (Address o) "" then withAddress o DefaultAddress else o)
          = APIKey o) as Hkey by by destruct (String.eqb (Address o) "").
  rewrite Haddress, Hdial.
  destruct (compileIgnored_Ok _ [] Hgood) as (ignored & ->).
  eexists. split; [reflexivity|]. cbn. by rewrite Haddress, Hkey.
Qed.

(** C6 (amended). Construction returns an error, and no exporter, when
    an ignore pattern does not compile or when dialing the endpoint fails;
    otherwise it returns an exporter, whether or not an API key or an
    endpoint is configured, the endpoint being the configured address or,
    when that is empty, the default address.  With no hooks installed,
    exporting a view always returns normally. *)
Theorem NewExporter_fails_only_on_pattern_or_dial (o : Options) :
  ((exists s, s ∈ IgnoredMetricNames o /\ exists err, regexp_Compile s = Err err) ->
   exists err, NewExporter o = Err err) /\
  ((exists err, grpc_Dial (dialAddress o) = Err err) ->
   exists err, NewExporter o = Err err) /\
  ((forall s, s ∈ IgnoredMetricNames o -> exists re, regexp_Compile s = Ok re) ->
   forall conn, grpc_Dial (dialAddress o) = Ok conn ->
   exists e,
     NewExporter o = Ok e /\
     client e = conn /\
     Address (options e) = dialAddress o /\
     APIKey (options e) = APIKey o) /\
  (forall now e vd,
     noHooks (options e) -> exists e', ExportView now e vd = Done e').
Proof.
  assert (IgnoredMetricNames
            (if String.eqb (Address o) "" then withAddress o DefaultAddress else o)
          = IgnoredMetricNames o) as Hnames by by destruct (String.eqb (Address o) "").
  assert (Address (if String.eqb (Address o) "" then withAddress o DefaultAddress else o)
          = dialAddress o) as Haddress
    by (unfold dialAddress; by destruct (String.eqb (Address o) "")).
  assert (APIKey (if String.eqb (Address o) "" then withAddress o DefaultAddress else o)
          = APIKey o) as Hkey by by destruct (String.eqb (Address o) "").
  repeat split.
  - intros Hbad. unfold NewExporter. cbv zeta. rewrite Hnames.
    destruct (compileIgnored_Err _ [] Hbad) as (err & ->). by exists err.
  - intros (err & Hdial). unfold NewExporter. cbv zeta. rewrite Hnames, Haddress, Hdial.
    destruct (compileIgnored (IgnoredMetricNames o) []) as [ignored|err'];
      [by exists err | by exists err'].
  - intros Hgood conn Hdial. by apply NewExporter_Ok.
  - intros now e vd (Hview & Hrow & Hdata). unfold ExportView.
    set (fields := {[ "viewName" := FString (Name (ViewOf vd)) ]}
                   : gmap string FieldValue).
    destruct (log_components e LogLevelDebug fields "exporting view")
      as (Hopts & _).
    destruct (isIgnored _ _); [by eexists|].
    rewrite Hopts, Hview.
    destruct (onViewRows_Done now vd (Rows vd) (log e LogLevelDebug fields "exporting view"))
      as (e' & He' & _); [by rewrite Hopts..|].
    by exists e'.
Qed.

End ConstructionFacts.

Lemma NewExporter_fails_only_on_pattern_or_dial_witness :
  ((exists s, s ∈ IgnoredMetricNames badPatternOptions /\
              exists err, regexp_Compile s = Err err) /\
   (forall s, s ∈ IgnoredMetricNames bareOptions -> exists re, regexp_Compile s = Ok re) /\
   grpc_Dial (dialAddress bareOptions) = Ok DefaultAddress /\
   noHooks (options sampleExporter)) /\
  (exists err, NewExporter badPatternOptions = Err err) /\
  (exists e, NewExporter bareOptions = Ok e /\
             Address (options e) = DefaultAddress /\ APIKey (options e) = "") /\
  (exists e', ExportView (mapRange := rangeInOrder) 0 sampleExporter fooView = Done e').
Proof.
  assert (exists s, s ∈ IgnoredMetricNames badPatternOptions /\
                    exists err, regexp_Compile s = Err err) as Hbad.
  { exists "*". split; [apply list_elem_of_further, list_elem_of_here|].
    eexists. reflexivity. }
  assert (forall s, s ∈ IgnoredMetricNames bareOptions ->
                    exists re, regexp_Compile s = Ok re) as Hgood.
  { intros s Hin. exfalso. exact (proj1 (elem_of_nil s) Hin). }
  assert (grpc_Dial (dialAddress bareOptions) = Ok DefaultAddress) as Hdial
    by reflexivity.
  assert (noHooks (options sampleExporter)) as Hhooks by (repeat split).
  split; [by repeat split|].
  destruct (NewExporter_fails_only_on_pattern_or_dial badPatternOptions)
    as (Hpattern & _ & _ & _).
  destruct (NewExporter_fails_only_on_pattern_or_dial (mapRange := rangeInOrder)
              bareOptions) as (_ & _ & Hok & Hsteady).
  split; [exact (Hpattern Hbad)|].
  split; [|exact (Hsteady 0%Z sampleExporter fooView Hhooks)].
  destruct (Hok Hgood DefaultAddress Hdial) as (e & He & _ & Haddress & Hkey).
  exists e. split; [exact He|]. split; [exact Haddress | exact Hkey].
Defined.

Example NewExporter_bad_pattern :
  constructionError (NewExporter badPatternOptions)
  = Some (ErrOther "missing argument to repetition operator: `*`").
Proof. vm_compute. reflexivity. Qed.

(** C6 as stated fails: a configuration without API key and without
    endpoint is accepted; the endpoint defaults and the key stays empty. *)
Lemma NewExporter_accepts_missing_key_and_endpoint :
  ~ (forall o : Options,
       APIKey o = "" \/ Address o = "" -> exists err, NewExporter o = Err err).
Proof.
  intros Hclaim. destruct (Hclaim bareOptions) as (err & Herr); [by left|].
  destruct (NewExporter_Ok (grpcLib := receiver) bareOptions DefaultAddress)
    as (e & He & _).
  - intros s Hin. by apply not_elem_of_nil in Hin.
  - reflexivity.
  - rewrite He in Herr. discriminate Herr.
Qed.

(** C5 at the failing input: the pattern [x*] compiles and matches the
    name [foo] (with an empty match), yet the view is exported: one model
    and one metric reach the bundlers. *)
Theorem ExportView_exports_view_with_empty_match :
  regexp_Compile "x*" = Ok [Re.Star (Re.Lit "x"%char)] /\
  MatchString [Re.Star (Re.Lit "x"%char)] (Name (ViewOf fooView)) = true /\
  FindString [Re.Star (Re.Lit "x"%char)] (Name (ViewOf fooView)) = "" /\
  NewExporter ignoringOptions = Ok ignoringExporter /\
  buffered (ExportView (mapRange := rangeInOrder) 0 ignoringExporter fooView)
  = Some (1%nat, 1%nat).
Proof.
  split; [reflexivity|].
  split; [reflexivity|].
  split; [reflexivity|].
  split; [reflexivity|].
  vm_compute. reflexivity.
Qed.

(** * Further properties of the code *)

(** ** Tags, dimensions and metadata of a row *)

Lemma lastTagValue_cons (name : string) (tag : Tag) (tags : list Tag) :
  lastTagValue name (tag :: tags) =
  match lastTagValue name tags with
  | Some v => Some v
  | None => if decide (Key tag = name) then Some (TagValue tag) else None
  end.
Proof.
  unfold lastTagValue. rewrite filter_cons.
  destruct (decide (Key tag = name)) as [Hk|Hk]; [|by destruct (last _)].
  rewrite last_cons. by destruct (last (filter _ tags)).
Qed.

Lemma lastTagValue_None (name : string) (tags : list Tag) :
  lastTagValue name tags = None <-> forall tag, tag ∈ tags -> Key tag <> name.
Proof.
  induction tags as [|tag tags IH].
  - split; [by intros _ tag ?%not_elem_of_nil | done].
  - rewrite lastTagValue_cons. destruct (lastTagValue name tags) as [v|] eqn:Hlast.
    + split; [done|]. intros Hall. exfalso.
      assert (Some v = None) as [=]. apply IH. intros t Hin. apply Hall. by right.
    + destruct (decide (Key tag = name)) as [Hk|Hk].
      * split; [done|]. intros Hall. destruct (Hall tag); [left | done].
      * split; [|done]. intros _ t [->|Hin]%elem_of_cons; [done|].
        by apply (proj1 IH).
Qed.

Lemma lastTagValue_firstTagValue (name : string) (tags : list Tag) :
  lastTagValue name tags = None <-> firstTagValue name tags = None.
Proof. by rewrite lastTagValue_None, firstTagValue_None. Qed.






Lemma tagsToMetadata_at
    (dimensions : gmap string string) (tags : list Tag)
    (metadataFields : gmap string string) (k : string) :
  tagsToMetadata dimensions tags metadataFields !! k =
  match dimensions !! k with
  | Some _ => metadataFields !! k
  | None =>
    match lastTagValue k tags with
    | Some v => Some v
    | None => metadataFields !! k
    end
  end.
Proof.
  unfold tagsToMetadata. revert metadataFields.
  induction tags as [|tag tags IH]; intros md; cbn.
  - by destruct (dimensions !! k).
  - rewrite IH, lastTagValue_cons.
    destruct (dimensions !! k) as [d|] eqn:Hd.
    + destruct (dimensions !! Key tag) eqn:Ht; [done|].
      rewrite lookup_insert_ne; [done|]. congruence.
    + destruct (lastTagValue k tags) as [v|]; [done|].
      destruct (decide (Key tag = k)) as [<-|Hne].
      * by rewrite Hd, lookup_insert_eq.
      * destruct (dimensions !! Key tag); [done|]. by rewrite lookup_insert_ne.
Qed.

(** X1. Every row tag that is not a key of the row's dimension map is
    stored as a metadata field, a later tag with the same key replacing an
    earlier one; keys of the dimension map and keys no tag carries keep
    what the metadata map held. *)
Theorem tagsToMetadata_lookup
    (dimensions : gmap string string) (tags : list Tag)
    (metadataFields : gmap string string) (k : string) :
  tagsToMetadata dimensions tags metadataFields !! k =
  match dimensions !! k with
  | Some _ => metadataFields !! k
  | None =>
    match lastTagValue k tags with
    | Some v => Some v
    | None => metadataFields !! k
    end
  end.
Proof. apply tagsToMetadata_at. Qed.

Lemma tagsMap_lookup (tags : list Tag) (k : string) :
  tagsMap tags !! k = lastTagValue k tags.
Proof.
  unfold tagsMap.
  assert (forall m : gmap string string,
            fold_left (fun m tag => <[Key tag := TagValue tag]> m) tags m !! k =
            match lastTagValue k tags with Some v => Some v | None => m !! k end) as Hfold.
  { induction tags as [|tag tags IH]; intros m; cbn; [done|].
    rewrite IH, lastTagValue_cons. destruct (lastTagValue k tags); [done|].
    destruct (decide (Key tag = k)) as [<-|Hne];
      [by rewrite lookup_insert_eq | by rewrite lookup_insert_ne]. }
  rewrite Hfold, lookup_empty. by destruct (lastTagValue k tags).
Qed.

Lemma addKubernetesImpacts_lookup_ne (m : gmap string string) (k : string) :
  k <> ImpactFromDimensionsField -> addKubernetesImpacts m !! k = m !! k.
Proof.
  intros Hk. unfold addKubernetesImpacts.
  repeat (case_match; try done). by rewrite lookup_insert_ne.
Qed.

Lemma addKubernetesImpacts_is_Some (m : gmap string string) (k : string) :
  is_Some (m !! k) -> is_Some (addKubernetesImpacts m !! k).
Proof.
  intros Hk. unfold addKubernetesImpacts.
  repeat (case_match; try done).
  destruct (decide (k = ImpactFromDimensionsField)) as [->|Hne];
    [by rewrite lookup_insert_eq | by rewrite lookup_insert_ne].
Qed.

Lemma rowDimensions_at (o : Options) (tags : list Tag) (k : string) :
  rowDimensions o tags !! k =
  match GlobalDimensions o !! k with
  | Some v => Some v
  | None => if decide (k ∈ ModelDimensionTags o) then matchedValue k tags else None
  end.
Proof.
  unfold rowDimensions. rewrite copyGlobals_lookup, pullDimensions_lookup.
  by rewrite firstTagValue_matchedValue.
Qed.

(** X2. The dimension set of a row holds every global dimension with its
    global value; any other key is a dimension exactly when it is a
    configured dimension tag that the row carries, with the value of the
    first row tag of that name.  Tags that are not configured never become
    dimensions. *)
Theorem rowDimensions_lookup (o : Options) (tags : list Tag) (k : string) :
  rowDimensions o tags !! k =
  match GlobalDimensions o !! k with
  | Some v => Some v
  | None => if decide (k ∈ ModelDimensionTags o) then matchedValue k tags else None
  end.
Proof. apply rowDimensions_at. Qed.

Lemma rowMetadataFields_lookup (o : Options) (tags : list Tag) (k : string) :
  rowMetadataFields o tags !! k =
  match GlobalMetadataFields o !! k with
  | Some v => Some v
  | None =>
    addKubernetesImpacts
      (tagsToMetadata (fst (pullDimensions (ModelDimensionTags o) tags)) tags
         {[SourceTypeField := DefaultSourceType]}) !! k
  end.
Proof. unfold rowMetadataFields. apply copyGlobals_lookup. Qed.

Lemma rowModel_fields_lookup (o : Options) (vd : ViewData) (tags : list Tag) (k : string) :
  k <> NameField ->
  Model_MetadataFields (rowModel o vd tags) !! k =
  encodeField k <$> rowMetadataFields o tags !! k.
Proof.
  intros Hk. unfold rowModel. cbn.
  by rewrite metadataFieldsFromMap_lookup, lookup_insert_ne, copyMap_id.
Qed.

Section RowFacts.
Context {mapRange : MapRange}.

Lemma onViewRow_data_model (o : Options) (vd : ViewData) (row : Row)
    (data : Data) (model : Model) :
  onViewRow_data o vd row = Some data -> model ∈ Models data ->
  hasDimensionTag o (Tags row) /\ model = rowModel o vd (Tags row).
Proof.
  intros Hdata Hin.
  destruct (hasDimensionTag_dec o (Tags row)) as [Hdim|Hdim].
  2: { by rewrite onViewRow_data_None in Hdata. }
  split; [done|].
  destruct (onViewRow_data_Models o vd row Hdim) as (data' & Hdata' & Hmodels).
  rewrite Hdata in Hdata'. injection Hdata' as <-.
  rewrite Hmodels in Hin. by apply list_elem_of_singleton in Hin.
Qed.

Lemma addMetric_Metrics vd md dims ts data name value :
  Metrics (addMetric vd md dims ts data name value) =
  (Metrics data ++ Metrics (addMetric vd md dims ts emptyData name value))%list.
Proof. done. Qed.

Lemma rowMetrics_metric vd md dims ts data rowData metric :
  metric ∈ Metrics (rowMetrics vd md dims ts data rowData) ->
  metric ∈ Metrics data \/
  exists name value,
    Metrics (addMetric vd md dims ts emptyData name value) = [metric].
Proof.
  destruct rowData as [v|v|v|Count Min Max Mean SumOfSquaredDev|]; cbn [rowMetrics].
  1-3: rewrite addMetric_Metrics; intros [Hin|Hin]%elem_of_app; [by left|];
       right; cbn in Hin; apply list_elem_of_singleton in Hin as ->; by eexists _, _.
  - rewrite fold_addMetric_Metrics.
    intros [Hin|Hin]%elem_of_app; [by left|]. right.
    apply list_elem_of_bind in Hin as (ms & Hin & Hms).
    apply list_elem_of_fmap in Hms as (p & -> & _).
    cbn in Hin. apply list_elem_of_singleton in Hin as ->. by eexists _, _.
  - by left.
Qed.

(** Every metric record of a row is built from the row's dimension set,
    metadata set and timestamp. *)
Lemma onViewRow_data_metric (o : Options) (vd : ViewData) (row : Row)
    (data : Data) (metric : Metric) :
  onViewRow_data o vd row = Some data -> metric ∈ Metrics data ->
  exists name value,
    metric = mkMetric name (rowDimensions o (Tags row))
               (metricMetadataFields o vd (Tags row)) (rowTimestamp vd) value.
Proof.
  intros Hdata Hin.
  destruct (hasDimensionTag_dec o (Tags row)) as [Hdim|Hdim].
  2: { by rewrite onViewRow_data_None in Hdata. }
  rewrite (onViewRow_data_Some o vd row Hdim) in Hdata. injection Hdata as <-.
  apply rowMetrics_metric in Hin as [Hin|(name & value & Hmetric)].
  - cbn in Hin. by apply not_elem_of_nil in Hin.
  - exists name, value. cbn in Hmetric. injection Hmetric as <-.
    unfold metricMetadataFields. by rewrite !copyMap_id.
Qed.

(** X3. No tag of a row is lost: in the model record built for the row
    the key of every row tag is a key of the dimensions or of the
    metadata fields. *)
Theorem model_keeps_every_tag_key (o : Options) (vd : ViewData) (row : Row)
    (data : Data) (model : Model) (tag : Tag) :
  onViewRow_data o vd row = Some data ->
  model ∈ Models data ->
  tag ∈ Tags row ->
  Key tag ∈ dom (Model_Dimensions model) \/ Key tag ∈ dom (Model_MetadataFields model).
Proof.
  intros Hdata Hmodel Htag.
  destruct (onViewRow_data_model o vd row data model Hdata Hmodel) as (_ & ->).
  rewrite !elem_of_dom. unfold rowModel. cbn.
  destruct (fst (pullDimensions (ModelDimensionTags o) (Tags row)) !! Key tag)
    as [d|] eqn:Hd.
  - left. unfold rowDimensions. rewrite copyGlobals_lookup, Hd.
    by destruct (GlobalDimensions o !! Key tag).
  - right. rewrite metadataFieldsFromMap_lookup, fmap_is_Some.
    destruct (decide (NameField = Key tag)) as [<-|Hname];
      [by rewrite lookup_insert_eq|].
    rewrite lookup_insert_ne, copyMap_id, rowMetadataFields_lookup by done.
    destruct (GlobalMetadataFields o !! Key tag); [done|].
    apply addKubernetesImpacts_is_Some. rewrite tagsToMetadata_at, Hd.
    destruct (lastTagValue (Key tag) (Tags row)) as [v|] eqn:Hlast; [done|].
    rewrite lastTagValue_None in Hlast. by destruct (Hlast tag Htag).
Qed.

(** X4. Whatever the aggregation of a row is, every metric record built
    for the row carries the dimensions and the timestamp of the row's
    model record. *)
Theorem metrics_share_model_dimensions (o : Options) (vd : ViewData) (row : Row)
    (data : Data) (model : Model) (metric : Metric) :
  onViewRow_data o vd row = Some data ->
  model ∈ Models data ->
  metric ∈ Metrics data ->
  Metric_Dimensions metric = Model_Dimensions model /\
  Metric_Timestamp metric = Model_Timestamp model.
Proof.
  intros Hdata Hmodel Hmetric.
  destruct (onViewRow_data_model o vd row data model Hdata Hmodel) as (_ & ->).
  by destruct (onViewRow_data_metric o vd row data metric Hdata Hmetric)
    as (name & value & ->).
Qed.

(** X5. A global dimension is a dimension of every model and metric
    record, with the global value, also when the row has a dimension tag
    of the same name. *)
Theorem global_dimensions_in_every_record (o : Options) (vd : ViewData) (row : Row)
    (data : Data) (k v : string) :
  onViewRow_data o vd row = Some data ->
  GlobalDimensions o !! k = Some v ->
  (forall model, model ∈ Models data -> Model_Dimensions model !! k = Some v) /\
  (forall metric, metric ∈ Metrics data -> Metric_Dimensions metric !! k = Some v).
Proof.
  intros Hdata Hglobal. split.
  - intros model Hmodel.
    destruct (onViewRow_data_model o vd row data model Hdata Hmodel) as (_ & ->).
    cbn. by rewrite rowDimensions_at, Hglobal.
  - intros metric Hmetric.
    destruct (onViewRow_data_metric o vd row data metric Hdata Hmetric)
      as (name & value & ->).
    cbn. by rewrite rowDimensions_at, Hglobal.
Qed.

(** X6. A global metadata field is a metadata field of the model record,
    with the global value, unless it is called [name], and of every metric
    record unless it is called [description] or [units]; its value is
    wrapped in a list for the two impact fields and plain otherwise. *)
Theorem global_metadata_in_every_record (o : Options) (vd : ViewData) (row : Row)
    (data : Data) (k v : string) :
  onViewRow_data o vd row = Some data ->
  GlobalMetadataFields o !! k = Some v ->
  let encoded :=
    if bool_decide (k = "impactFromDimensions" \/ k = "impactToDimensions")
    then ListValue [StringValue v] else StringValue v in
  (k <> "name" ->
   forall model, model ∈ Models data -> Model_MetadataFields model !! k = Some encoded) /\
  (k <> "description" -> k <> "units" ->
   forall metric, metric ∈ Metrics data ->
                  Metric_MetadataFields metric !! k = Some encoded).
Proof.
  intros Hdata Hglobal encoded.
  assert (encoded = encodeField k v) as ->.
  { unfold encoded, encodeField. by rewrite isImpactField_spec. }
  split.
  - intros Hname model Hmodel.
    destruct (onViewRow_data_model o vd row data model Hdata Hmodel) as (_ & ->).
    by rewrite rowModel_fields_lookup, rowMetadataFields_lookup, Hglobal.
  - intros Hdescription Hunits metric Hmetric.
    destruct (onViewRow_data_metric o vd row data metric Hdata Hmetric)
      as (name & value & ->).
    cbn. unfold metricMetadataFields. rewrite metadataFieldsFromMap_lookup.
    repeat case_match; rewrite ?lookup_insert_ne by done;
      by rewrite copyMap_id, rowMetadataFields_lookup, Hglobal.
Qed.

(** X7. A row with a count, sum or last-value aggregation yields exactly
    one metric record, named after the view and valued with the scalar; a
    row without aggregation data yields its model record and no metric. *)
Theorem scalar_row_one_metric (o : Options) (vd : ViewData) (tags : list Tag) :
  hasDimensionTag o tags ->
  let metric value :=
    mkMetric (Name (ViewOf vd)) (rowDimensions o tags) (metricMetadataFields o vd tags)
      (rowTimestamp vd) value in
  (forall n, Metrics <$> onViewRow_data o vd (mkRow tags (CountData n))
             = Some [metric (float64_of_int64 n)]) /\
  (forall x, Metrics <$> onViewRow_data o vd (mkRow tags (SumData x)) = Some [metric x]) /\
  (forall x, Metrics <$> onViewRow_data o vd (mkRow tags (LastValueData x))
             = Some [metric x]) /\
  onViewRow_data o vd (mkRow tags NilData)
  = Some (mkData [rowModel o vd tags] []).
Proof.
  intros Hdim metric.
  repeat split; intros;
    rewrite (onViewRow_data_Some o vd (mkRow tags _) Hdim); cbn;
    unfold metric, addMetric, metricMetadataFields; cbn; by rewrite ?copyMap_id.
Qed.

End RowFacts.

(** X8. The timestamp of the records of a view is its end time in
    milliseconds, rounded toward zero: it is less than one millisecond
    away from the end time and never further from zero. *)
Theorem rowTimestamp_truncates (vd : ViewData) :
  (- 2 ^ 63 <= EndUnixNano vd < 2 ^ 63)%Z ->
  (Z.abs (EndUnixNano vd - rowTimestamp vd * 1000000) < 1000000)%Z /\
  (0 <= EndUnixNano vd -> 0 <= rowTimestamp vd * 1000000 <= EndUnixNano vd)%Z /\
  (EndUnixNano vd <= 0 -> EndUnixNano vd <= rowTimestamp vd * 1000000 <= 0)%Z.
Proof.
  intros Hrange. unfold rowTimestamp, int64_quot.
  pose proof (Z.quot_rem' (EndUnixNano vd) 1000000) as Hdiv.
  pose proof (Z.rem_bound_abs (EndUnixNano vd) 1000000) as Habs.
  assert (0 <= EndUnixNano vd -> 0 <= Z.rem (EndUnixNano vd) 1000000)%Z as Hpos
    by (apply Z.rem_nonneg; lia).
  assert (EndUnixNano vd <= 0 -> Z.rem (EndUnixNano vd) 1000000 <= 0)%Z as Hneg
    by (apply Z.rem_nonpos; lia).
  rewrite wrap64_small by lia. lia.
Qed.

Lemma rowTimestamp_truncates_witness :
  (- 2 ^ 63 <= EndUnixNano sampleView < 2 ^ 63)%Z /\
  (Z.abs (EndUnixNano sampleView - rowTimestamp sampleView * 1000000) < 1000000)%Z /\
  (0 <= EndUnixNano sampleView ->
   0 <= rowTimestamp sampleView * 1000000 <= EndUnixNano sampleView)%Z /\
  (EndUnixNano sampleView <= 0 ->
   EndUnixNano sampleView <= rowTimestamp sampleView * 1000000 <= 0)%Z.
Proof.
  assert (- 2 ^ 63 <= EndUnixNano sampleView < 2 ^ 63)%Z as Hrange by (cbn; lia).
  split; [exact Hrange | exact (rowTimestamp_truncates sampleView Hrange)].
Defined.

(** ** Kubernetes impacts *)

Lemma addKubernetesImpacts_cases (m : gmap string string) :
  (forall cluster namespace pod,
     m !! "k8s.cluster" = Some cluster -> m !! "k8s.namespace" = Some namespace ->
     m !! "k8s.pod" = Some pod ->
     cluster <> "" -> namespace <> "" -> pod <> "" ->
     addKubernetesImpacts m =
     <["impactFromDimensions" := impactOf cluster namespace pod]> m) /\
  (~ (nonEmptyField m "k8s.cluster" /\ nonEmptyField m "k8s.namespace" /\
      nonEmptyField m "k8s.pod") ->
   addKubernetesImpacts m = m) /\
  (forall k, k <> "impactFromDimensions" -> addKubernetesImpacts m !! k = m !! k).
Proof.
  split; [|split].
  - intros cluster namespace pod Hc Hn Hp Hce Hne Hpe.
    unfold addKubernetesImpacts, K8sClusterField, K8sNamespaceField, K8sPodField.
    rewrite Hc, Hn, Hp.
    destruct (String.eqb_spec cluster ""); [done|].
    destruct (String.eqb_spec namespace ""); [done|].
    destruct (String.eqb_spec pod ""); [done|]. reflexivity.
  - intros Hnot. unfold addKubernetesImpacts.
    destruct (m !! K8sClusterField) as [cluster|] eqn:Hc; [|done].
    destruct (String.eqb_spec cluster ""); [done|].
    destruct (m !! K8sNamespaceField) as [namespace|] eqn:Hn; [|done].
    destruct (String.eqb_spec namespace ""); [done|].
    destruct (m !! K8sPodField) as [pod|] eqn:Hp; [|done].
    destruct (String.eqb_spec pod ""); [done|].
    destruct Hnot. unfold nonEmptyField. eauto 10.
  - intros k Hk. by apply addKubernetesImpacts_lookup_ne.
Qed.

(** X9. [addKubernetesImpacts] stores the impact relation of cluster,
    namespace and pod under [impactFromDimensions] when all three fields
    are present and not empty, and returns the map as it is when one of
    them is missing or empty; no other key is ever changed. *)
Theorem addKubernetesImpacts_spec (m : gmap string string) :
  (forall cluster namespace pod,
     m !! "k8s.cluster" = Some cluster -> m !! "k8s.namespace" = Some namespace ->
     m !! "k8s.pod" = Some pod ->
     cluster <> "" -> namespace <> "" -> pod <> "" ->
     addKubernetesImpacts m =
     <["impactFromDimensions" := impactOf cluster namespace pod]> m) /\
  (~ (nonEmptyField m "k8s.cluster" /\ nonEmptyField m "k8s.namespace" /\
      nonEmptyField m "k8s.pod") ->
   addKubernetesImpacts m = m) /\
  (forall k, k <> "impactFromDimensions" -> addKubernetesImpacts m !! k = m !! k).
Proof. apply addKubernetesImpacts_cases. Qed.

(** X10. The impact relation is computed from the row's own metadata
    before the global metadata fields are copied: when the row has no
    [k8s.cluster] tag, or [k8s.cluster] is a configured dimension tag, and
    no row tag is called [impactFromDimensions], the metadata set holds
    under [impactFromDimensions] just what the global metadata fields hold
    there, whether or not these name cluster, namespace and pod. *)
Theorem impact_not_derived_from_global_fields (o : Options) (tags : list Tag) :
  firstTagValue "k8s.cluster" tags = None \/ "k8s.cluster" ∈ ModelDimensionTags o ->
  lastTagValue "impactFromDimensions" tags = None ->
  rowMetadataFields o tags !! "impactFromDimensions" =
  GlobalMetadataFields o !! "impactFromDimensions".
Proof.
  intros Hcluster Himpact. rewrite rowMetadataFields_lookup.
  destruct (GlobalMetadataFields o !! "impactFromDimensions") as [v|]; [done|].
  set (md := tagsToMetadata _ _ _).
  assert (md !! "k8s.cluster" = None) as Hmd.
  { unfold md. rewrite tagsToMetadata_at, pullDimensions_lookup.
    destruct Hcluster as [Hnone|Hin].
    - rewrite Hnone, (proj2 (lastTagValue_firstTagValue _ _) Hnone).
      by case_decide.
    - rewrite decide_True by done.
      destruct (firstTagValue "k8s.cluster" tags) eqn:Hfirst; [done|].
      by rewrite (proj2 (lastTagValue_firstTagValue _ _) Hfirst). }
  destruct (addKubernetesImpacts_cases md) as (_ & -> & _).
  - unfold md. rewrite tagsToMetadata_at, Himpact. by case_match.
  - intros ((v & Hv & _) & _). congruence.
Qed.

Section ImpactFacts.
Context {mapRange : MapRange}.

(** X11. When the last tags of a row named [k8s.cluster],
    [k8s.namespace] and [k8s.pod] have non-empty values, none of the three
    is a configured dimension tag and no global metadata field is called
    [impactFromDimensions], the model record of the row carries the impact
    relation of the three values, as a list of one string. *)
Theorem model_carries_kubernetes_impact (o : Options) (vd : ViewData) (row : Row)
    (data : Data) (model : Model) (cluster namespace pod : string) :
  onViewRow_data o vd row = Some data ->
  model ∈ Models data ->
  "k8s.cluster" ∉ ModelDimensionTags o ->
  "k8s.namespace" ∉ ModelDimensionTags o ->
  "k8s.pod" ∉ ModelDimensionTags o ->
  lastTagValue "k8s.cluster" (Tags row) = Some cluster ->
  lastTagValue "k8s.namespace" (Tags row) = Some namespace ->
  lastTagValue "k8s.pod" (Tags row) = Some pod ->
  cluster <> "" -> namespace <> "" -> pod <> "" ->
  GlobalMetadataFields o !! "impactFromDimensions" = None ->
  Model_MetadataFields model !! "impactFromDimensions" =
  Some (ListValue [StringValue (impactOf cluster namespace pod)]).
Proof.
  intros Hdata Hmodel Hc Hn Hp Hlc Hln Hlp Hce Hne Hpe Hglobal.
  destruct (onViewRow_data_model o vd row data model Hdata Hmodel) as (_ & ->).
  rewrite rowModel_fields_lookup, rowMetadataFields_lookup, Hglobal by done.
  set (md := tagsToMetadata _ _ _).
  assert (forall k v, k ∉ ModelDimensionTags o -> lastTagValue k (Tags row) = Some v ->
                      md !! k = Some v) as Hmd.
  { intros k v Hk Hlast. unfold md.
    by rewrite tagsToMetadata_at, pullDimensions_lookup, decide_False, Hlast. }
  destruct (addKubernetesImpacts_cases md) as (Himpact & _).
  rewrite (Himpact cluster namespace pod) by auto.
  by rewrite lookup_insert_eq.
Qed.

End ImpactFacts.

(** ** Bundling, export and construction *)

Section PipelineFacts.
Context {regexpLib : RegexpLib} {hashLib : HashLib} {bundlerLib : BundlerLib}
  {grpcLib : GrpcLib} {mapRange : MapRange}.

Lemma withFreshnessChecker_same (e : Exporter) :
  withFreshnessChecker e (modelFreshnessChecker e) = e.
Proof. by destruct e. Qed.

Lemma bundleModel_freshness (now : Z) (e : Exporter) (model : Model) :
  modelFreshnessChecker (bundleModel now e model) =
  snd (isFresh (modelFreshnessChecker e) model now).
Proof.
  unfold bundleModel.
  destruct (isFresh (modelFreshnessChecker e) model now) as [[] f]; [done|]. cbn.
  destruct (bundler_Add (modelsBundler e) model 1) as [b [err|]]; [|done].
  by destruct (log_components (withModelsBundler (withFreshnessChecker e f) b)
                 LogLevelError {[ "error" := FError (Some err) ]}
                 (sendFailure "models" err)) as (_ & _ & _ & _ & _ & -> & _).
Qed.

(** X12. Once a model went through the models loop, a model with the
    same dimensions and metadata fields that follows before any eviction
    is skipped and changes nothing, also when the bundler had refused the
    first one: a refused model is remembered as sent. *)
Theorem bundleModel_resubmission_skipped
    (now now' : Z) (e : Exporter) (model model' : Model) (keyHash valueHash : Z) :
  hashDimensions (Model_Dimensions model) = Ok keyHash ->
  hashMetadataFields (Model_MetadataFields model) = Ok valueHash ->
  Model_Dimensions model' = Model_Dimensions model ->
  Model_MetadataFields model' = Model_MetadataFields model ->
  bundleModel now' (bundleModel now e model) model' = bundleModel now e model.
Proof.
  intros Hk Hv Hdims Hfields.
  destruct (isFresh_entry (modelFreshnessChecker e) model now keyHash valueHash Hk Hv)
    as (old & Hold & Hvalue & _).
  rewrite <- bundleModel_freshness in Hold.
  unfold bundleModel at 1.
  rewrite (isFresh_hashed _ model' now' keyHash valueHash)
    by (by rewrite ?Hdims, ?Hfields).
  rewrite Hold, Hvalue, Z.eqb_refl. apply withFreshnessChecker_same.
Qed.

Lemma log_debug_dropped (e : Exporter) fields format :
  OnLog (options e) = false -> log e LogLevelDebug fields format = e.
Proof. intros Hlog. unfold log. by rewrite Hlog. Qed.

(** X13. Without a custom log function and without hooks, exporting a
    view none of whose rows carries a configured dimension tag leaves the
    exporter exactly as it was: nothing is bundled, remembered, sent or
    logged. *)
Theorem ExportView_untagged_rows_unchanged (now : Z) (e : Exporter) (vd : ViewData) :
  OnLog (options e) = false ->
  noHooks (options e) ->
  (forall row, row ∈ Rows vd -> ~ hasDimensionTag (options e) (Tags row)) ->
  ExportView now e vd = Done e.
Proof.
  intros Hlog (Hview & Hrow & Hdata) Hrows. unfold ExportView.
  rewrite !log_debug_dropped by done. rewrite Hview.
  destruct (isIgnored _ _); [done|]. unfold onViewData.
  induction (Rows vd) as [|row rows IH]; [done|]. cbn.
  unfold onViewDataRow, onViewRow. rewrite Hrow.
  rewrite onViewRow_data_None by (apply Hrows; left).
  rewrite log_debug_dropped by done. cbn. apply IH.
  intros r Hr. apply Hrows. by right.
Qed.

(** X14. A view whose name has a non-empty match of some ignore pattern
    is dropped after two debug-level log calls: no hook is consulted, no
    row is translated, and bundlers, freshness cache and outbound calls
    stay as they were. *)
Theorem ExportView_drops_matched_view (now : Z) (e : Exporter) (vd : ViewData) :
  (exists re, re ∈ ignoredMetrics e /\ FindString re (Name (ViewOf vd)) <> "") ->
  let fields : gmap string FieldValue :=
    {[ "viewName" := FString (Name (ViewOf vd)) ]} in
  let e' := log (log e LogLevelDebug fields "exporting view")
              LogLevelDebug fields "ignoring metric" in
  ExportView now e vd = Done e' /\
  modelsBundler e' = modelsBundler e /\
  metricsBundler e' = metricsBundler e /\
  modelFreshnessChecker e' = modelFreshnessChecker e /\
  sent e' = sent e.
Proof.
  intros Hmatch%isIgnored_true fields e'. unfold ExportView. fold fields.
  destruct (log_components e LogLevelDebug fields "exporting view")
    as (_ & Hignored & _ & Hmodels & Hmetrics & Hfresh & Hsent).
  rewrite Hignored, Hmatch. split; [reflexivity|]. unfold e'.
  destruct (log_components (log e LogLevelDebug fields "exporting view")
              LogLevelDebug fields "ignoring metric")
    as (_ & _ & _ & -> & -> & -> & ->).
  done.
Qed.

(** X15. When the [OnViewRow] hook returns no data for the first row of
    a view that is not ignored, and no [OnData] hook is installed, the
    export panics, whether or not the hook asked to prevent the default. *)
Theorem ExportView_nil_hook_data_panics
    (now : Z) (e : Exporter) (vd : ViewData)
    (hook : ViewData -> Row -> option Data * bool)
    (row : Row) (rest : list Row) (preventDefault : bool) :
  isIgnored (ignoredMetrics e) (Name (ViewOf vd)) = false ->
  OnViewData (options e) = None ->
  OnViewRow (options e) = Some hook ->
  OnData (options e) = None ->
  Rows vd = row :: rest ->
  hook vd row = (None, preventDefault) ->
  ExportView now e vd = Panic.
Proof.
  intros Hignored Hview Hrow Hdata Hrows Hhook. unfold ExportView.
  set (fields := {[ "viewName" := FString (Name (ViewOf vd)) ]}
                 : gmap string FieldValue).
  destruct (log_components e LogLevelDebug fields "exporting view")
    as (Hopts & Hre & _).
  rewrite Hre, Hignored, Hopts, Hview. unfold onViewData. rewrite Hrows. cbn.
  unfold onViewDataRow. rewrite Hopts, Hrow, Hhook.
  unfold bundleData. by rewrite Hopts, Hdata.
Qed.

Lemma compileIgnored_Forall2 (names : list string) (acc ignored : list Regexp) :
  compileIgnored names acc = Ok ignored ->
  exists compiled,
    ignored = (acc ++ compiled)%list /\
    Forall2 (fun s re => regexp_Compile s = Ok re) names compiled.
Proof.
  revert acc. induction names as [|s names IH]; intros acc; cbn.
  - intros [= <-]. exists []. by rewrite app_nil_r.
  - destruct (regexp_Compile s) as [re|err] eqn:Hs; [|done].
    intros (compiled & -> & Hall)%IH. exists (re :: compiled).
    split; [by rewrite <- app_assoc | by constructor].
Qed.

Lemma compileIgnored_first_error (before after : list string) (s : string)
    (err : error) (acc : list Regexp) :
  (forall s', s' ∈ before -> exists re, regexp_Compile s' = Ok re) ->
  regexp_Compile s = Err err ->
  compileIgnored (before ++ s :: after) acc = Err err.
Proof.
  revert acc. induction before as [|b before IH]; intros acc Hgood Hbad; cbn.
  - by rewrite Hbad.
  - destruct (Hgood b) as (re & ->); [left|].
    apply IH; [|done]. intros s' Hin. apply Hgood. by right.
Qed.

Lemma NewExporter_names (o : Options) :
  IgnoredMetricNames
    (if String.eqb (Address o) "" then withAddress o DefaultAddress else o)
  = IgnoredMetricNames o.
Proof. by destruct (String.eqb (Address o) ""). Qed.

(** X16. An exporter that was constructed holds one compiled pattern for
    every configured ignore pattern, in the configured order, and a fresh,
    empty freshness cache with a TTL of 3600 seconds. *)
Theorem NewExporter_compiles_patterns_in_order (o : Options) (e : Exporter) :
  NewExporter o = Ok e ->
  Forall2 (fun s re => regexp_Compile s = Ok re)
    (IgnoredMetricNames o) (ignoredMetrics e) /\
  modelFreshnessChecker e = mkFreshnessChecker ∅ 3600 /\
  logged e = [] /\ sent e = [].
Proof.
  unfold NewExporter. cbv zeta. rewrite NewExporter_names.
  destruct (compileIgnored (IgnoredMetricNames o) []) as [ignored|err] eqn:Hcompile;
    [|done].
  destruct (grpc_Dial _) as [conn|err]; [|done].
  intros [= <-]. cbn.
  apply compileIgnored_Forall2 in Hcompile as (compiled & -> & Hall). done.
Qed.

(** X17. Construction reports the error of the first ignore pattern
    that does not compile, before the endpoint is dialed. *)
Theorem NewExporter_reports_first_bad_pattern
    (o : Options) (before after : list string) (s : string) (err : error) :
  IgnoredMetricNames o = (before ++ s :: after)%list ->
  (forall s', s' ∈ before -> exists re, regexp_Compile s' = Ok re) ->
  regexp_Compile s = Err err ->
  NewExporter o = Err err.
Proof.
  intros Hnames Hgood Hbad. unfold NewExporter. cbv zeta.
  rewrite NewExporter_names, Hnames.
  by rewrite (compileIgnored_first_error before after s err [] Hgood Hbad).
Qed.

End PipelineFacts.

(** ** Eviction *)

(** X18. A tick of the eviction loop keeps the TTL, removes exactly the
    entries whose age at the tick exceeds the TTL and leaves every other
    entry as it is; a second tick at the same time removes nothing
    more. *)
Theorem evict_removes_only_expired (f : freshnessChecker) (now : Z) :
  fc_seconds (evict f now) = fc_seconds f /\
  (forall k old,
     fc_m (evict f now) !! k = Some old <->
     fc_m f !! k = Some old /\ (int64_sub now (exp_t old) <= fc_seconds f)%Z) /\
  evict (evict f now) now = evict f now.
Proof.
  assert (forall g k old,
            fc_m (evict g now) !! k = Some old <->
            fc_m g !! k = Some old /\ (int64_sub now (exp_t old) <= fc_seconds g)%Z)
    as Hlookup.
  { intros g k old. rewrite evict_lookup.
    destruct (fc_m g !! k) as [entry|]; [|split; [done | by intros [? _]]].
    destruct (Z.ltb_spec (fc_seconds g) (int64_sub now (exp_t entry))).
    - split; [done|]. intros [Heq Hle]. injection Heq as Heq. subst entry. lia.
    - split; [|by intros [? _]].
      intros Heq. injection Heq as Heq. subst entry. split; [done | lia]. }
  split; [done|]. split; [apply Hlookup|].
  assert (forall g h : freshnessChecker,
            fc_m g = fc_m h -> fc_seconds g = fc_seconds h -> g = h) as Hext
    by (intros [] []; cbn; congruence).
  apply Hext; [|done].
  apply map_eq. intros k. apply option_eq. intros old.
  rewrite (Hlookup (evict f now)), Hlookup. cbn. tauto.
Qed.

(** ** The tagged-metrics exporter *)

Section TaggedFacts.
Context {Client : Type} {mapRange : MapRange}.

Lemma Tagged_NewExporter_cases (o : Tagged.Options Client) :
  match Tagged.Output o with
  | None =>
    Tagged.NewExporter o = Err (ErrOther "zenoss.Options.Output must be specified") /\
    forall e, fst (Tagged.SetOptions e o) = e
  | Some out =>
    exists e,
      Tagged.NewExporter o = Ok e /\
      Tagged.output e = Some out /\
      Tagged.Output (Tagged.options e) = Some out /\
      Tagged.Source (Tagged.options e) = Tagged.Source o /\
      Tagged.ExtraTags (Tagged.options e) = Tagged.ExtraTags o /\
      Tagged.SourceType (Tagged.options e) =
        (if String.eqb (Tagged.SourceType o) "" then DefaultSourceType
         else Tagged.SourceType o) /\
      Tagged.SourceType (Tagged.options e) <> ""
  end.
Proof.
  unfold Tagged.NewExporter, Tagged.SetOptions.
  destruct (Tagged.Output o) as [out|] eqn:Hout; [|done].
  eexists. split; [reflexivity|]. cbn.
  destruct (String.eqb_spec (Tagged.SourceType o) ""); cbn; by rewrite ?Hout.
Qed.

(** X19. Constructing a tagged-metrics exporter fails exactly when no
    output is configured; otherwise the exporter sends to that output and
    keeps the options, with an empty source type replaced by the default
    one, so that its source type is never empty.  [SetOptions] without
    output leaves the exporter as it was. *)
Theorem Tagged_NewExporter_requires_output (o : Tagged.Options Client) :
  match Tagged.Output o with
  | None =>
    Tagged.NewExporter o = Err (ErrOther "zenoss.Options.Output must be specified") /\
    forall e, fst (Tagged.SetOptions e o) = e
  | Some out =>
    exists e,
      Tagged.NewExporter o = Ok e /\
      Tagged.output e = Some out /\
      Tagged.Output (Tagged.options e) = Some out /\
      Tagged.Source (Tagged.options e) = Tagged.Source o /\
      Tagged.ExtraTags (Tagged.options e) = Tagged.ExtraTags o /\
      Tagged.SourceType (Tagged.options e) =
        (if String.eqb (Tagged.SourceType o) "" then DefaultSourceType
         else Tagged.SourceType o) /\
      Tagged.SourceType (Tagged.options e) <> ""
  end.
Proof. apply Tagged_NewExporter_cases. Qed.

Lemma conditional_insert_lookup (key v : string) (m : gmap string string) (k : string) :
  (if String.eqb v "" then m else <[key := v]> m) !! k =
  if bool_decide (k = key /\ v <> "") then Some v else m !! k.
Proof.
  destruct (String.eqb_spec v "") as [Hv|Hv].
  - rewrite bool_decide_eq_false_2; [done|]. by intros [_ ?].
  - destruct (decide (k = key)) as [->|Hk].
    + rewrite bool_decide_eq_true_2 by done. apply lookup_insert_eq.
    + rewrite bool_decide_eq_false_2 by (by intros [? _]). by apply lookup_insert_ne.
Qed.

Lemma withDescriptionAndUnits_lookup (vd : ViewData) (tags : gmap string string)
    (k : string) :
  withDescriptionAndUnits vd tags !! k =
  if bool_decide (k = "units" /\ MeasureUnit (ViewOf vd) <> "")
  then Some (MeasureUnit (ViewOf vd))
  else if bool_decide (k = "description" /\ Description (ViewOf vd) <> "")
  then Some (Description (ViewOf vd))
  else tags !! k.
Proof.
  unfold withDescriptionAndUnits, Tagged.addMetric. cbn [Tagged.sharedTags].
  by rewrite !conditional_insert_lookup.
Qed.

Lemma addMetric_sharedTags (vd : ViewData) (batch : Tagged.RowBatch)
    (name : string) (value : float64) :
  Tagged.sharedTags (Tagged.addMetric vd batch name value) =
  withDescriptionAndUnits vd (Tagged.sharedTags batch).
Proof. done. Qed.

Lemma withDescriptionAndUnits_idemp (vd : ViewData) (tags : gmap string string) :
  withDescriptionAndUnits vd (withDescriptionAndUnits vd tags) =
  withDescriptionAndUnits vd tags.
Proof.
  apply map_eq. intros k. rewrite !withDescriptionAndUnits_lookup.
  by repeat case_bool_decide.
Qed.

Lemma fold_addMetric_batch (vd : ViewData) (name : string)
    (l : list (string * float64)) (batch : Tagged.RowBatch) :
  Tagged.entries
    (fold_left (fun batch p => Tagged.addMetric vd batch (name ++ "/" ++ fst p) (snd p))
       l batch) =
  (Tagged.entries batch ++
   map (fun p => ((name ++ "/" ++ fst p)%string, snd p)) l)%list /\
  Tagged.sharedTags
    (fold_left (fun batch p => Tagged.addMetric vd batch (name ++ "/" ++ fst p) (snd p))
       l batch) =
  match l with
  | [] => Tagged.sharedTags batch
  | _ => withDescriptionAndUnits vd (Tagged.sharedTags batch)
  end.
Proof.
  revert batch. induction l as [|p l IH]; intros batch; cbn.
  - by rewrite app_nil_r.
  - destruct (IH (Tagged.addMetric vd batch (name ++ "/" ++ fst p) (snd p)))
      as (-> & ->).
    split; [cbn; by rewrite <- app_assoc|].
    rewrite addMetric_sharedTags. destruct l; [done|].
    apply withDescriptionAndUnits_idemp.
Qed.

Lemma rowTags_lookup (o : Tagged.Options Client) (row : Row) (k : string) :
  Tagged.rowTags o row !! k =
  if bool_decide (k = "source-type" /\ Tagged.SourceType o <> "")
  then Some (Tagged.SourceType o)
  else if bool_decide (k = "source" /\ Tagged.Source o <> "")
  then Some (Tagged.Source o)
  else match Tagged.ExtraTags o !! k with
       | Some v => Some v
       | None => lastTagValue k (Tags row)
       end.
Proof.
  unfold Tagged.rowTags. rewrite !conditional_insert_lookup.
  fold (tagsMap (Tags row)). fold (copyGlobals (Tagged.ExtraTags o) (tagsMap (Tags row))).
  by rewrite copyGlobals_lookup, tagsMap_lookup.
Qed.

Lemma range_order_length (l : list (string * float64)) :
  length (range_order l) = length l.
Proof. apply Permutation_length, range_order_perm. Qed.

(** The metrics of a row: as many as its aggregation has values, all with
    the row's tags completed by description and units. *)
Lemma exportRow_batch (e : Tagged.Exporter Client) (vd : ViewData) (row : Row) :
  length (Tagged.entries (Tagged.exportRow e vd row)) = metricCount (RowData row) /\
  (metricCount (RowData row) <> 0%nat ->
   Tagged.sharedTags (Tagged.exportRow e vd row) =
   withDescriptionAndUnits vd (Tagged.rowTags (Tagged.options e) row)).
Proof.
  unfold Tagged.exportRow.
  destruct (RowData row) as [v|v|v|Count Min Max Mean SumOfSquaredDev|]; cbn; try done.
  destruct (fold_addMetric_batch vd (Name (ViewOf vd))
              (range_order (distributionParams Count Min Max Mean SumOfSquaredDev))
              (Tagged.mkRowBatch (Tagged.rowTags (Tagged.options e) row) []))
    as (-> & ->).
  cbn. rewrite length_map, range_order_length. split; [done|]. intros _.
  pose proof (range_order_length (distributionParams Count Min Max Mean SumOfSquaredDev))
    as Hlen.
  by destruct (range_order _).
Qed.

Lemma Tagged_tags_at (e : Tagged.Exporter Client) (vd : ViewData) (row : Row)
    (timestamp : Z) (metric : Tagged.TaggedMetric) (k : string) :
  metric ∈ Tagged.batchMetrics timestamp (Tagged.exportRow e vd row) ->
  Tagged.TaggedMetric_Tags metric !! k = expectedTag (Tagged.options e) vd row k.
Proof.
  intros Hin. unfold Tagged.batchMetrics in Hin.
  apply list_elem_of_fmap in Hin as (p & -> & Hp). cbn.
  destruct (exportRow_batch e vd row) as (Hlen & Htags).
  rewrite Htags.
  - rewrite withDescriptionAndUnits_lookup, rowTags_lookup. reflexivity.
  - intros Hzero. rewrite Hzero in Hlen.
    destruct (Tagged.entries (Tagged.exportRow e vd row)); [|done].
    by apply not_elem_of_nil in Hp.
Qed.

(** X20. Every tagged metric of a row carries, under each key, the
    first of: the unit of the measure (key [units], if not empty), the
    description of the view (key [description], if not empty), the source
    type (key [source-type], if not empty), the source (key [source], if
    not empty), the extra tag of that key, the last row tag of that key.
    The five metrics of a distribution carry the same tags. *)
Theorem Tagged_metric_tags (e : Tagged.Exporter Client) (vd : ViewData) (row : Row)
    (timestamp : Z) (metric : Tagged.TaggedMetric) (k : string) :
  metric ∈ Tagged.batchMetrics timestamp (Tagged.exportRow e vd row) ->
  Tagged.TaggedMetric_Tags metric !! k = expectedTag (Tagged.options e) vd row k.
Proof. apply Tagged_tags_at. Qed.

Lemma flat_map_length_sum {A B} (f : A -> list B) (l : list A) :
  length (flat_map f l) = sum_list (map (fun x => length (f x)) l).
Proof. induction l as [|x l IH]; cbn; [done|]. by rewrite length_app, IH. Qed.

(** X21. Exporting a view makes no call when no row has aggregation
    data, in particular when there is no row.  Otherwise it makes exactly
    one call, with one metric for every scalar row and five for every
    distribution row, all stamped with the end time in milliseconds; on an
    exporter without output that call panics. *)
Theorem Tagged_ExportView_call (e : Tagged.Exporter Client) (vd : ViewData) :
  let count := sum_list (map (fun row => metricCount (RowData row)) (Rows vd)) in
  exists metrics,
    length metrics = count /\
    (forall metric, metric ∈ metrics ->
       Tagged.TaggedMetric_Timestamp metric = int64_quot (EndUnixNano vd) 1000000) /\
    Tagged.ExportView e vd =
    if (count =? 0)%nat then Done None
    else match Tagged.output e with
         | Some out => Done (Some (out, metrics))
         | None => Panic
         end.
Proof.
  intros count. unfold Tagged.ExportView.
  set (metrics := flat_map _ (Rows vd)).
  assert (length metrics = count) as Hlen.
  { unfold metrics, count. rewrite flat_map_length_sum. f_equal.
    apply map_ext. intros row. unfold Tagged.batchMetrics. rewrite length_map.
    apply exportRow_batch. }
  exists metrics. split; [done|]. split; [|by rewrite Hlen].
  intros metric Hin. unfold metrics in Hin.
  apply list_elem_of_In, in_flat_map in Hin as (row & _ & Hin).
  unfold Tagged.batchMetrics in Hin. apply in_map_iff in Hin as (p & <- & _). done.
Qed.

(** X22. An exporter made by [NewExporter] never panics on a view, sends
    to the configured output, and every metric it sends carries the
    configured source type, or the default one, under [source-type]. *)
Theorem Tagged_NewExporter_exports_with_source_type
    (o : Tagged.Options Client) (e : Tagged.Exporter Client) (vd : ViewData) :
  Tagged.NewExporter o = Ok e ->
  exists call,
    Tagged.ExportView e vd = Done call /\
    forall out metrics metric,
      call = Some (out, metrics) -> metric ∈ metrics ->
      Tagged.Output o = Some out /\
      Tagged.TaggedMetric_Tags metric !! "source-type" =
      Some (if String.eqb (Tagged.SourceType o) "" then DefaultSourceType
            else Tagged.SourceType o).
Proof.
  intros Hnew.
  pose proof (Tagged_NewExporter_cases o) as Hspec.
  destruct (Tagged.Output o) as [out|] eqn:Hout.
  2: { destruct Hspec as (Herr & _). congruence. }
  destruct Hspec as (e' & He' & Houtput & _ & _ & _ & Htype & Hnonempty).
  assert (e' = e) as -> by congruence.
  unfold Tagged.ExportView. rewrite Houtput.
  set (ts := int64_quot _ _). set (metrics := flat_map _ (Rows vd)).
  destruct (length metrics =? 0)%nat; eexists; (split; [reflexivity|]); [done|].
  intros out' metrics' metric [= <- <-] Hin. split; [done|].
  unfold metrics in Hin.
  apply list_elem_of_In, in_flat_map in Hin as (row & _ & Hin).
  apply list_elem_of_In in Hin.
  rewrite (Tagged_tags_at e vd row ts metric "source-type" Hin).
  unfold expectedTag. rewrite Htype in *.
  rewrite !bool_decide_eq_false_2 by (by intros [? _]).
  by rewrite bool_decide_eq_true_2.
Qed.

End TaggedFacts.

(** ** The properties on sample inputs *)

Lemma hd_elem_of {A} (d : A) (l : list A) : (0 < length l)%nat -> hd d l ∈ l.
Proof. destruct l; cbn; [lia | left]. Defined.

Lemma sampleData_built :
  onViewRow_data (mapRange := rangeInOrder) sampleOptions sampleView sampleRow
  = Some sampleData.
Proof. vm_compute. reflexivity. Defined.

Lemma sampleModel_built : sampleModel ∈ Models sampleData.
Proof.
  assert (Models sampleData = [sampleModel]) as -> by (vm_compute; reflexivity).
  apply list_elem_of_here.
Defined.

Lemma thirdMetric_built : thirdMetric ∈ Metrics sampleData.
Proof.
  assert (Metrics sampleData
          = (take 2 (Metrics sampleData) ++ thirdMetric :: drop 3 (Metrics sampleData))%list)
    as -> by (vm_compute; reflexivity).
  apply elem_of_app. right. apply list_elem_of_here.
Defined.

Lemma model_keeps_every_tag_key_witness :
  (onViewRow_data (mapRange := rangeInOrder) sampleOptions sampleView sampleRow
   = Some sampleData /\
   sampleModel ∈ Models sampleData /\
   mkTag "other" "o" ∈ Tags sampleRow) /\
  (Key (mkTag "other" "o") ∈ dom (Model_Dimensions sampleModel) \/
   Key (mkTag "other" "o") ∈ dom (Model_MetadataFields sampleModel)).
Proof.
  assert (mkTag "other" "o" ∈ Tags sampleRow) as Htag
    by (cbn; apply list_elem_of_further, list_elem_of_further, list_elem_of_here).
  split; [exact (conj sampleData_built (conj sampleModel_built Htag))|].
  exact (model_keeps_every_tag_key (mapRange := rangeInOrder) sampleOptions sampleView
           sampleRow sampleData sampleModel (mkTag "other" "o")
           sampleData_built sampleModel_built Htag).
Defined.

Lemma metrics_share_model_dimensions_witness :
  (onViewRow_data (mapRange := rangeInOrder) sampleOptions sampleView sampleRow
   = Some sampleData /\
   sampleModel ∈ Models sampleData /\ thirdMetric ∈ Metrics sampleData) /\
  Metric_Dimensions thirdMetric = Model_Dimensions sampleModel /\
  Metric_Timestamp thirdMetric = Model_Timestamp sampleModel.
Proof.
  split; [exact (conj sampleData_built (conj sampleModel_built thirdMetric_built))|].
  exact (metrics_share_model_dimensions (mapRange := rangeInOrder) sampleOptions
           sampleView sampleRow sampleData sampleModel thirdMetric
           sampleData_built sampleModel_built thirdMetric_built).
Defined.

Lemma global_dimensions_in_every_record_witness :
  (onViewRow_data (mapRange := rangeInOrder) sampleOptions sampleView sampleRow
   = Some sampleData /\
   GlobalDimensions sampleOptions !! "source" = Some "app") /\
  (forall model, model ∈ Models sampleData ->
                 Model_Dimensions model !! "source" = Some "app") /\
  (forall metric, metric ∈ Metrics sampleData ->
                  Metric_Dimensions metric !! "source" = Some "app").
Proof.
  split; [exact (conj sampleData_built eq_refl)|].
  exact (global_dimensions_in_every_record (mapRange := rangeInOrder) sampleOptions
           sampleView sampleRow sampleData "source" "app" sampleData_built eq_refl).
Defined.

Lemma globalK8sData_built :
  onViewRow_data (mapRange := rangeInOrder) globalK8sOptions sampleView sampleRow
  = Some globalK8sData.
Proof. vm_compute. reflexivity. Defined.

Lemma global_metadata_in_every_record_witness :
  (onViewRow_data (mapRange := rangeInOrder) globalK8sOptions sampleView sampleRow
   = Some globalK8sData /\
   GlobalMetadataFields globalK8sOptions !! "team" = Some "core") /\
  (forall model, model ∈ Models globalK8sData ->
                 Model_MetadataFields model !! "team" = Some (StringValue "core")) /\
  (forall metric, metric ∈ Metrics globalK8sData ->
                  Metric_MetadataFields metric !! "team" = Some (StringValue "core")).
Proof.
  split; [exact (conj globalK8sData_built eq_refl)|].
  destruct (global_metadata_in_every_record (mapRange := rangeInOrder) globalK8sOptions
              sampleView sampleRow globalK8sData "team" "core" globalK8sData_built eq_refl)
    as (Hmodel & Hmetric).
  split.
  - apply Hmodel. discriminate.
  - apply Hmetric; discriminate.
Defined.

Lemma sampleRow_tagged : hasDimensionTag sampleOptions (Tags sampleRow).
Proof.
  apply sampleRow_hasDimensionTag. cbn. apply list_elem_of_further, list_elem_of_here.
Defined.

Lemma scalar_row_one_metric_witness :
  hasDimensionTag sampleOptions (Tags sampleRow) /\
  Metrics <$> onViewRow_data (mapRange := rangeInOrder) sampleOptions sampleView
                (mkRow (Tags sampleRow) (CountData 7))
  = Some [mkMetric "example.size" (rowDimensions sampleOptions (Tags sampleRow))
            (metricMetadataFields sampleOptions sampleView (Tags sampleRow))
            (rowTimestamp sampleView) 7%float] /\
  onViewRow_data (mapRange := rangeInOrder) sampleOptions sampleView
    (mkRow (Tags sampleRow) NilData)
  = Some (mkData [sampleModel] []).
Proof.
  split; [exact sampleRow_tagged|].
  destruct (scalar_row_one_metric (mapRange := rangeInOrder) sampleOptions sampleView
              (Tags sampleRow) sampleRow_tagged) as (Hcount & _ & _ & Hnil).
  split; [exact (Hcount 7%Z) | exact Hnil].
Defined.

Example addKubernetesImpacts_sample :
  addKubernetesImpacts
    {[ "k8s.cluster" := "c1"; "k8s.namespace" := "ns1"; "k8s.pod" := "p1" ]}
  !! "impactFromDimensions"
  = Some "k8s.cluster=c1,k8s.namespace=ns1,k8s.pod=p1" /\
  addKubernetesImpacts {[ "k8s.cluster" := "c1"; "k8s.namespace" := ""; "k8s.pod" := "p1" ]}
  = {[ "k8s.cluster" := "c1"; "k8s.namespace" := ""; "k8s.pod" := "p1" ]}.
Proof. split; vm_compute; reflexivity. Qed.

Lemma impact_not_derived_from_global_fields_witness :
  ((firstTagValue "k8s.cluster" (Tags sampleRow) = None \/
    "k8s.cluster" ∈ ModelDimensionTags globalK8sOptions) /\
   lastTagValue "impactFromDimensions" (Tags sampleRow) = None) /\
  GlobalMetadataFields globalK8sOptions !! "k8s.cluster" = Some "c1" /\
  rowMetadataFields globalK8sOptions (Tags sampleRow) !! "k8s.cluster" = Some "c1" /\
  rowMetadataFields globalK8sOptions (Tags sampleRow) !! "impactFromDimensions" = None.
Proof.
  assert (firstTagValue "k8s.cluster" (Tags sampleRow) = None \/
          "k8s.cluster" ∈ ModelDimensionTags globalK8sOptions) as Hcluster
    by (left; reflexivity).
  assert (lastTagValue "impactFromDimensions" (Tags sampleRow) = None) as Himpact
    by reflexivity.
  split; [exact (conj Hcluster Himpact)|].
  split; [reflexivity|]. split; [vm_compute; reflexivity|].
  rewrite (impact_not_derived_from_global_fields globalK8sOptions (Tags sampleRow)
             Hcluster Himpact).
  reflexivity.
Defined.

Lemma k8sData_built :
  onViewRow_data (mapRange := rangeInOrder) sampleOptions sampleView k8sRow = Some k8sData.
Proof. vm_compute. reflexivity. Defined.

Lemma k8sModel_built : k8sModel ∈ Models k8sData.
Proof.
  assert (Models k8sData = [k8sModel]) as -> by (vm_compute; reflexivity).
  apply list_elem_of_here.
Defined.

Lemma not_dimension_tag (name : string) :
  name <> "service" -> name <> "zone" -> name ∉ ModelDimensionTags sampleOptions.
Proof.
  intros Hservice Hzone Hin. cbn in Hin.
  apply elem_of_cons in Hin as [Hin|Hin]; [exact (Hservice Hin)|].
  apply list_elem_of_singleton in Hin. exact (Hzone Hin).
Defined.

Lemma model_carries_kubernetes_impact_witness :
  (onViewRow_data (mapRange := rangeInOrder) sampleOptions sampleView k8sRow
   = Some k8sData /\
   k8sModel ∈ Models k8sData /\
   ("k8s.cluster" ∉ ModelDimensionTags sampleOptions) /\
   ("k8s.namespace" ∉ ModelDimensionTags sampleOptions) /\
   ("k8s.pod" ∉ ModelDimensionTags sampleOptions) /\
   lastTagValue "k8s.cluster" (Tags k8sRow) = Some "c1" /\
   lastTagValue "k8s.namespace" (Tags k8sRow) = Some "ns1" /\
   lastTagValue "k8s.pod" (Tags k8sRow) = Some "p1" /\
   "c1" <> "" /\ "ns1" <> "" /\ "p1" <> "" /\
   GlobalMetadataFields sampleOptions !! "impactFromDimensions" = None) /\
  Model_MetadataFields k8sModel !! "impactFromDimensions" =
  Some (ListValue [StringValue "k8s.cluster=c1,k8s.namespace=ns1,k8s.pod=p1"]).
Proof.
  assert ("k8s.cluster" ∉ ModelDimensionTags sampleOptions) as Hc
    by (apply not_dimension_tag; discriminate).
  assert ("k8s.namespace" ∉ ModelDimensionTags sampleOptions) as Hn
    by (apply not_dimension_tag; discriminate).
  assert ("k8s.pod" ∉ ModelDimensionTags sampleOptions) as Hp
    by (apply not_dimension_tag; discriminate).
  assert ("c1" <> "") as Hce by discriminate.
  assert ("ns1" <> "") as Hne by discriminate.
  assert ("p1" <> "") as Hpe by discriminate.
  split.
  { exact (conj k8sData_built (conj k8sModel_built (conj Hc (conj Hn (conj Hp
             (conj eq_refl (conj eq_refl (conj eq_refl (conj Hce (conj Hne
                (conj Hpe eq_refl))))))))))). }
  exact (model_carries_kubernetes_impact (mapRange := rangeInOrder) sampleOptions
           sampleView k8sRow k8sData k8sModel "c1" "ns1" "p1"
           k8sData_built k8sModel_built Hc Hn Hp eq_refl eq_refl eq_refl
           Hce Hne Hpe eq_refl).
Defined.

Lemma bundleModel_resubmission_skipped_witness :
  (hashDimensions (Model_Dimensions sampleModel)
   = Ok (Fnv.hashMap (Model_Dimensions sampleModel)) /\
   hashMetadataFields (Model_MetadataFields sampleModel)
   = Ok (Fnv.hashFields (Model_MetadataFields sampleModel)) /\
   Model_Dimensions laterModel = Model_Dimensions sampleModel /\
   Model_MetadataFields laterModel = Model_MetadataFields sampleModel) /\
  bundleModel 5 (bundleModel 0 fullExporter sampleModel) laterModel
  = bundleModel 0 fullExporter sampleModel.
Proof.
  split; [by repeat split|].
  exact (bundleModel_resubmission_skipped 0 5 fullExporter sampleModel laterModel
           (Fnv.hashMap (Model_Dimensions sampleModel))
           (Fnv.hashFields (Model_MetadataFields sampleModel))
           eq_refl eq_refl eq_refl eq_refl).
Defined.

(** The refused model is logged once and not offered again. *)
Example refused_model_is_remembered :
  map log_level (logged (bundleModel 0 fullExporter sampleModel)) = [LogLevelError] /\
  map log_level (logged (bundleModel 5 (bundleModel 0 fullExporter sampleModel) laterModel))
  = [LogLevelError].
Proof. split; vm_compute; reflexivity. Qed.

Lemma ExportView_untagged_rows_unchanged_witness :
  (OnLog (options bareExporter) = false /\
   noHooks (options bareExporter) /\
   (forall row, row ∈ Rows fooView ->
                ~ hasDimensionTag (options bareExporter) (Tags row))) /\
  ExportView (mapRange := rangeInOrder) 0 bareExporter fooView = Done bareExporter.
Proof.
  assert (noHooks (options bareExporter)) as Hhooks by (repeat split).
  assert (forall row, row ∈ Rows fooView ->
                      ~ hasDimensionTag (options bareExporter) (Tags row)) as Hrows.
  { intros row _ (tag & _ & Hin). exact (proj1 (elem_of_nil _) Hin). }
  split; [exact (conj eq_refl (conj Hhooks Hrows))|].
  exact (ExportView_untagged_rows_unchanged (mapRange := rangeInOrder) 0 bareExporter
           fooView eq_refl Hhooks Hrows).
Defined.

Lemma ExportView_drops_matched_view_witness :
  (exists re, re ∈ ignoredMetrics skippingExporter /\
              FindString re (Name (ViewOf fooView)) <> "") /\
  let fields : gmap string FieldValue :=
    {[ "viewName" := FString (Name (ViewOf fooView)) ]} in
  let e' := log (log skippingExporter LogLevelDebug fields "exporting view")
              LogLevelDebug fields "ignoring metric" in
  ExportView (mapRange := rangeInOrder) 0 skippingExporter fooView = Done e' /\
  modelsBundler e' = modelsBundler skippingExporter /\
  metricsBundler e' = metricsBundler skippingExporter /\
  modelFreshnessChecker e' = modelFreshnessChecker skippingExporter /\
  sent e' = sent skippingExporter.
Proof.
  assert (exists re, re ∈ ignoredMetrics skippingExporter /\
                     FindString re (Name (ViewOf fooView)) <> "") as Hmatch.
  { exists [Re.One (Re.Lit "f"%char); Re.Star (Re.Lit "o"%char)].
    split; [apply list_elem_of_here | discriminate]. }
  split; [exact Hmatch|].
  exact (ExportView_drops_matched_view (mapRange := rangeInOrder) 0 skippingExporter
           fooView Hmatch).
Defined.

Lemma ExportView_nil_hook_data_panics_witness :
  (isIgnored (ignoredMetrics nilHookExporter) (Name (ViewOf fooView)) = false /\
   OnViewData (options nilHookExporter) = None /\
   OnViewRow (options nilHookExporter) = Some nilHook /\
   OnData (options nilHookExporter) = None /\
   Rows fooView = [mkRow [mkTag "service" "s1"] (CountData 1)] /\
   nilHook fooView (mkRow [mkTag "service" "s1"] (CountData 1)) = (None, false)) /\
  ExportView (mapRange := rangeInOrder) 0 nilHookExporter fooView = Panic.
Proof.
  split; [by repeat split|].
  exact (ExportView_nil_hook_data_panics (mapRange := rangeInOrder) 0 nilHookExporter
           fooView nilHook (mkRow [mkTag "service" "s1"] (CountData 1)) [] false
           eq_refl eq_refl eq_refl eq_refl eq_refl eq_refl).
Defined.

Lemma NewExporter_compiles_patterns_in_order_witness :
  NewExporter ignoringOptions = Ok ignoringExporter /\
  Forall2 (fun s re => regexp_Compile s = Ok re)
    (IgnoredMetricNames ignoringOptions) (ignoredMetrics ignoringExporter) /\
  modelFreshnessChecker ignoringExporter = mkFreshnessChecker ∅ 3600 /\
  logged ignoringExporter = [] /\ sent ignoringExporter = [].
Proof.
  split; [reflexivity|].
  exact (NewExporter_compiles_patterns_in_order ignoringOptions ignoringExporter eq_refl).
Defined.

Lemma NewExporter_reports_first_bad_pattern_witness :
  (IgnoredMetricNames badPatternOptions = (["foo"] ++ "*" :: [])%list /\
   (forall s', s' ∈ ["foo"] -> exists re, regexp_Compile s' = Ok re) /\
   regexp_Compile "*" = Err (ErrOther "missing argument to repetition operator: `*`")) /\
  NewExporter badPatternOptions
  = Err (ErrOther "missing argument to repetition operator: `*`").
Proof.
  assert (forall s', s' ∈ ["foo"] -> exists re, regexp_Compile s' = Ok re) as Hgood.
  { intros s' Hin. apply list_elem_of_singleton in Hin as ->. eexists. reflexivity. }
  split; [exact (conj eq_refl (conj Hgood eq_refl))|].
  exact (NewExporter_reports_first_bad_pattern badPatternOptions ["foo"] [] "*"
           (ErrOther "missing argument to repetition operator: `*`")
           eq_refl Hgood eq_refl).
Defined.

Example evict_sample :
  let f := mkFreshnessChecker
             {[ 1%Z := mkExpiring 10 1000; 2%Z := mkExpiring 20 5000 ]} 3600 in
  fc_m (evict f 4601) = {[ 2%Z := mkExpiring 20 5000 ]} /\
  fc_m (evict f 4600) = fc_m f.
Proof. split; vm_compute; reflexivity. Qed.

Example Tagged_NewExporter_sample :
  Tagged.NewExporter taggedOptions = Ok taggedExporter /\
  Tagged.NewExporter (Tagged.mkOptions (None : option string) "app" "" ∅)
  = Err (ErrOther "zenoss.Options.Output must be specified").
Proof. split; reflexivity. Qed.

Lemma firstTaggedMetric_built : firstTaggedMetric ∈ sampleTaggedMetrics.
Proof. apply hd_elem_of. vm_compute. lia. Defined.

Lemma Tagged_metric_tags_witness :
  firstTaggedMetric ∈
    Tagged.batchMetrics 0
      (Tagged.exportRow (mapRange := rangeInOrder) taggedExporter sampleView sampleRow) /\
  Tagged.TaggedMetric_Tags firstTaggedMetric !! "zone"
  = expectedTag (Tagged.options taggedExporter) sampleView sampleRow "zone".
Proof.
  split; [exact firstTaggedMetric_built|].
  exact (Tagged_metric_tags (mapRange := rangeInOrder) taggedExporter sampleView
           sampleRow 0 firstTaggedMetric "zone" firstTaggedMetric_built).
Defined.

(** The extra tag [zone] replaces the row's tag; the row tags [service]
    and [other] are kept; source, source type, description and units are
    added. *)
Example firstTaggedMetric_tags :
  Tagged.TaggedMetric_Tags firstTaggedMetric =
  list_to_map
    [ ("zone", "z0"); ("service", "s1"); ("other", "o"); ("env", "prod");
      ("source", "app"); ("source-type", "zenoss/opencensus-go-exporter-zenoss");
      ("description", "example size"); ("units", "By") ].
Proof. vm_compute. reflexivity. Qed.

Example Tagged_ExportView_sample :
  Tagged.ExportView (mapRange := rangeInOrder) taggedExporter sampleView = Done None /\
  (length <$> (snd <$>
     default None
       (match Tagged.ExportView (mapRange := rangeInOrder) taggedExporter
                (mkViewData (ViewOf sampleView) 0 [sampleRow; untaggedRow; sampleRow])
        with Done call => Some call | Panic => None end)))
  = Some 11%nat /\
  Tagged.ExportView (mapRange := rangeInOrder) (Tagged.zeroExporter (Client := string))
    (mkViewData (ViewOf sampleView) 0 [untaggedRow]) = Panic.
Proof. repeat split; vm_compute; reflexivity. Qed.

Lemma Tagged_NewExporter_exports_with_source_type_witness :
  Tagged.NewExporter taggedOptions = Ok taggedExporter /\
  exists call,
    Tagged.ExportView (mapRange := rangeInOrder) taggedExporter fooView = Done call /\
    forall out metrics metric,
      call = Some (out, metrics) -> metric ∈ metrics ->
      Tagged.Output taggedOptions = Some out /\
      Tagged.TaggedMetric_Tags metric !! "source-type" =
      Some (if String.eqb (Tagged.SourceType taggedOptions) "" then DefaultSourceType
            else Tagged.SourceType taggedOptions).
Proof.
  split; [reflexivity|].
  exact (Tagged_NewExporter_exports_with_source_type (mapRange := rangeInOrder)
           taggedOptions taggedExporter fooView eq_refl).
Defined.

(** ** What bundling leaves alone *)

Section BundleInvariants.
Context {regexpLib : RegexpLib} {hashLib : HashLib} {bundlerLib : BundlerLib}
  {grpcLib : GrpcLib} {mapRange : MapRange}.

Lemma onlyErrorsLogged_trans (n m : nat) (e1 e2 e3 : Exporter) :
  onlyErrorsLogged n e1 e2 -> onlyErrorsLogged m e2 e3 ->
  onlyErrorsLogged (n + m) e1 e3.
Proof.
  intros (Ho1 & Hs1 & calls1 & Hl1 & Hn1 & Hall1) (Ho2 & Hs2 & calls2 & Hl2 & Hn2 & Hall2).
  split; [congruence|]. split; [congruence|].
  exists (calls1 ++ calls2)%list. rewrite Hl2, Hl1, <- app_assoc, length_app.
  split; [done|]. split; [lia | by apply Forall_app].
Qed.

Lemma log_error_only (e : Exporter) fields format :
  onlyErrorsLogged 1 e (log e LogLevelError fields format).
Proof.
  destruct (log_components e LogLevelError fields format)
    as (Hopts & _ & _ & _ & _ & _ & Hsent).
  split; [done|]. split; [done|]. rewrite log_error_logged.
  eexists [_]. split; [done|]. split; [done|]. by repeat constructor.
Qed.

Lemma onlyErrorsLogged_same (n : nat) (e e' : Exporter) :
  options e' = options e -> sent e' = sent e -> logged e' = logged e ->
  onlyErrorsLogged n e e'.
Proof.
  intros Hopts Hsent Hlogged. split; [done|]. split; [done|].
  exists []. rewrite app_nil_r. split; [done|]. split; [cbn; lia | constructor].
Qed.

Lemma bundleMetric_invariant (e : Exporter) (metric : Metric) :
  modelsBundler (bundleMetric e metric) = modelsBundler e /\
  modelFreshnessChecker (bundleMetric e metric) = modelFreshnessChecker e /\
  onlyErrorsLogged 1 e (bundleMetric e metric).
Proof.
  unfold bundleMetric.
  destruct (bundler_Add (metricsBundler e) metric 1) as [b [err|]].
  - destruct (log_components (withMetricsBundler e b) LogLevelError
                {[ "error" := FError (Some err) ]} (sendFailure "metrics" err))
      as (_ & _ & _ & Hmodels & _ & Hfresh & _).
    split; [exact Hmodels|]. split; [exact Hfresh|].
    apply (log_error_only (withMetricsBundler e b)).
  - split; [done|]. split; [done|].
    by apply onlyErrorsLogged_same.
Qed.

Lemma bundleModel_invariant (now : Z) (e : Exporter) (model : Model) :
  metricsBundler (bundleModel now e model) = metricsBundler e /\
  onlyErrorsLogged 1 e (bundleModel now e model).
Proof.
  unfold bundleModel.
  destruct (isFresh (modelFreshnessChecker e) model now) as [[] f]; cbn.
  - split; [done|].
    by apply onlyErrorsLogged_same.
  - destruct (bundler_Add (modelsBundler e) model 1) as [b [err|]].
    + destruct (log_components (withModelsBundler (withFreshnessChecker e f) b)
                  LogLevelError {[ "error" := FError (Some err) ]}
                  (sendFailure "models" err))
        as (_ & _ & _ & _ & Hmetrics & _ & _).
      split; [exact Hmetrics|].
      apply (log_error_only (withModelsBundler (withFreshnessChecker e f) b)).
    + split; [done|].
      by apply onlyErrorsLogged_same.
Qed.

Lemma bundleMetrics_invariant (e : Exporter) (metrics : list Metric) :
  modelsBundler (bundleMetrics e metrics) = modelsBundler e /\
  modelFreshnessChecker (bundleMetrics e metrics) = modelFreshnessChecker e /\
  onlyErrorsLogged (length metrics) e (bundleMetrics e metrics).
Proof.
  revert e. induction metrics as [|metric metrics IH]; intros e.
  - split; [done|]. split; [done|]. by apply onlyErrorsLogged_same.
  - change (bundleMetrics e (metric :: metrics))
      with (bundleMetrics (bundleMetric e metric) metrics).
    destruct (IH (bundleMetric e metric)) as (Hbundler & Hfresh & Hrest).
    destruct (bundleMetric_invariant e metric) as (Hbundler' & Hfresh' & Hstep).
    split; [congruence|]. split; [congruence|].
    exact (onlyErrorsLogged_trans 1 (length metrics) e (bundleMetric e metric) _
             Hstep Hrest).
Qed.

Lemma bundleModels_invariant (now : Z) (e : Exporter) (models : list Model) :
  metricsBundler (bundleModels now e models) = metricsBundler e /\
  onlyErrorsLogged (length models) e (bundleModels now e models).
Proof.
  revert e. induction models as [|model models IH]; intros e.
  - split; [done|]. by apply onlyErrorsLogged_same.
  - change (bundleModels now e (model :: models))
      with (bundleModels now (bundleModel now e model) models).
    destruct (IH (bundleModel now e model)) as (Hbundler & Hrest).
    destruct (bundleModel_invariant now e model) as (Hbundler' & Hstep).
    split; [congruence|].
    exact (onlyErrorsLogged_trans 1 (length models) e (bundleModel now e model) _
             Hstep Hrest).
Qed.

(** X23. Bundling a batch keeps the two kinds of record apart: the
    models loop leaves the metrics bundler alone, the metrics loop leaves
    the models bundler and the freshness cache alone.  Bundling keeps the
    options, makes no outbound call, and logs nothing but error-level
    calls, at most one per record of the batch. *)
Theorem bundling_keeps_kinds_apart (now : Z) (e : Exporter) (data : Data) :
  let e1 := bundleModels now e (Models data) in
  let e2 := bundleMetrics e1 (Metrics data) in
  metricsBundler e1 = metricsBundler e /\
  modelsBundler e2 = modelsBundler e1 /\
  modelFreshnessChecker e2 = modelFreshnessChecker e1 /\
  options e2 = options e /\
  sent e2 = sent e /\
  exists calls,
    logged e2 = (logged e ++ calls)%list /\
    (length calls <= length (Models data) + length (Metrics data))%nat /\
    Forall (fun call => log_level call = LogLevelError) calls.
Proof.
  intros e1 e2.
  destruct (bundleModels_invariant now e (Models data)) as (Hmetrics & Hmodels).
  destruct (bundleMetrics_invariant e1 (Metrics data)) as (Hbundler & Hfresh & Hrest).
  destruct (onlyErrorsLogged_trans _ _ e e1 e2 Hmodels Hrest)
    as (Hopts & Hsent & Hcalls).
  done.
Qed.

End BundleInvariants.
